(** * Document normalizer and prompt composer (lib/document-parser)

    A shallow embedding of [parseDocument], [parsePDF], [parseExcel],
    [parseCSV] and [generateAnalysisPrompt], and the properties the
    specification states about them.

    Conventions of the embedding.
    - A JavaScript string is a Rocq [string]; each character stands for one
      code unit in the range 0..255 (the Latin-1 part of UTF-16).
    - A JavaScript number that counts something (bytes, rows, columns, pages)
      is an [N].
    - A promise that may reject, or a block that may throw, is a [Result].
    - The third-party collaborators (the HTTP call to the text-extraction
      route, [XLSX.read] with [sheet_to_json], the csv-parser stream) are the
      fields of an [Externals] record, which the extractors take as their first
      argument; [console.error] is not modelled. *)

From Stdlib Require Import List String Ascii Bool Arith NArith Lia DecimalString.
Import ListNotations.

Local Open Scope string_scope.
Local Open Scope N_scope.

(** ** JavaScript string primitives *)

Module JS.

Definition nl : string := String (ascii_of_nat 10) "".

(** [String.prototype.toLowerCase] on code units 0..255: A-Z, and the
    Latin-1 capitals U+00C0..U+00DE except the multiplication sign.  (On
    other code units the function may also change the number of code
    units; nothing below relies on lengths being kept.) *)
Definition toLowerCase_char (c : ascii) : ascii :=
  let n := N_of_ascii c in
  if ((65 <=? n) && (n <=? 90)) || ((192 <=? n) && (n <=? 222) && negb (n =? 215))
  then ascii_of_N (n + 32)
  else c.

Fixpoint toLowerCase (s : string) : string :=
  match s with
  | "" => ""
  | String c r => String (toLowerCase_char c) (toLowerCase r)
  end.

(** [s.split(sep)] for a one-character separator: never the empty array. *)
Fixpoint split (sep : ascii) (s : string) : list string :=
  match s with
  | "" => [""]
  | String c r =>
      if Ascii.eqb c sep then "" :: split sep r
      else match split sep r with
           | h :: t => String c h :: t
           | [] => [String c ""]
           end
  end.

(** [arr.pop()] as an expression: the last element, [undefined] on []. *)
Fixpoint pop (l : list string) : option string :=
  match l with
  | [] => None
  | [x] => Some x
  | _ :: r => pop r
  end.

(** [s.startsWith(p)]. *)
Fixpoint startsWith (s p : string) {struct p} : bool :=
  match p with
  | "" => true
  | String a p' =>
      match s with
      | "" => false
      | String b s' => Ascii.eqb a b && startsWith s' p'
      end
  end.

(** [s.includes(sub)]: [sub] starts at some position of [s]. *)
Fixpoint includes (s sub : string) : bool :=
  startsWith s sub ||
  match s with
  | "" => false
  | String _ r => includes r sub
  end.

(** [s.endsWith(suf)]. *)
Definition endsWith (s suf : string) : bool :=
  (Nat.leb (String.length suf) (String.length s)) &&
  String.eqb (substring (String.length s - String.length suf) (String.length suf) s) suf.

(** White space and line terminators among the code units 0..255. *)
Definition isWhiteSpace (c : ascii) : bool :=
  let n := N_of_ascii c in
  ((9 <=? n) && (n <=? 13)) || (n =? 32) || (n =? 160).

Fixpoint trimStart (s : string) : string :=
  match s with
  | "" => ""
  | String c r => if isWhiteSpace c then trimStart r else s
  end.

Fixpoint trimEnd (s : string) : string :=
  match s with
  | "" => ""
  | String c r =>
      match trimEnd r with
      | "" => if isWhiteSpace c then "" else String c ""
      | r' => String c r'
      end
  end.

(** [s.trim()]. *)
Definition trim (s : string) : string := trimEnd (trimStart s).

(** [arr.join(sep)] on an array of strings. *)
Fixpoint join (sep : string) (l : list string) : string :=
  match l with
  | [] => ""
  | [x] => x
  | x :: r => x ++ sep ++ join sep r
  end.

(** Number-to-string conversion of a non-negative integer. *)
Definition string_of_N (n : N) : string :=
  NilZero.string_of_uint (N.to_uint n).

Definition digit (d : N) : string := String (ascii_of_N (48 + d)) "".

(** [(bytes / 1024).toFixed(2)].  For a byte count below 2^53 the quotient
    [bytes / 1024] is exact in binary64, and [toFixed(2)] returns the
    decimal expansion of the integer [n] for which [n / 100] is nearest to
    it, the larger [n] on a tie: [n = floor ((100 * bytes + 512) / 1024)]. *)
Definition toFixed2_div1024 (bytes : N) : string :=
  let n := (100 * bytes + 512) / 1024 in
  string_of_N (n / 100) ++ "." ++ digit ((n mod 100) / 10) ++ digit (n mod 10).

(** Truthiness of a string and of a number. *)
Definition truthy_string (s : string) : bool := negb (String.eqb s "").
Definition truthy_number (n : N) : bool := negb (n =? 0).

(** [arr.forEach((x, index) => body)] threading the variables the body
    assigns. *)
Fixpoint forEach {A St : Type} (body : A -> N -> St -> St)
         (arr : list A) (index : N) (st : St) : St :=
  match arr with
  | [] => st
  | x :: r => forEach body r (N.succ index) (body x index st)
  end.

(** What was thrown: an [Error] with its message, or some other value. *)
Inductive thrown : Type :=
| JsError (message : string)
| NotAnError.

Inductive Result (A : Type) : Type :=
| Ok (a : A)
| Throw (e : thrown).
Arguments Ok {A} a.
Arguments Throw {A} e.

Definition bind {A B : Type} (r : Result A) (k : A -> Result B) : Result B :=
  match r with
  | Ok a => k a
  | Throw e => Throw e
  end.

(** [try { body } catch (error) { handler }]. *)
Definition try_catch {A : Type} (body : Result A) (handler : thrown -> Result A)
  : Result A :=
  match body with
  | Ok a => Ok a
  | Throw e => handler e
  end.

End JS.

Import JS.

Notation "x <- c1 ;; c2" := (bind c1 (fun x => c2))
  (at level 61, c1 at next level, right associativity).

(** ** Data model *)

(** [interface ParsedDocument]: the three descriptor fields are mandatory,
    the other four are optional properties ([None] is an absent property). *)
Record Metadata : Type := {
  fileName : string;
  fileType : string;
  fileSize : N;
  pageCount : option N;
  sheetNames : option (list string);
  rowCount : option N;
  columnCount : option N
}.

Record ParsedDocument : Type := {
  content : string;
  metadata : Metadata
}.

(** The part of a DOM [File] that [parseDocument] reads. *)
Record File : Type := {
  name : string;
  type : string;
  size : N
}.

Definition Buffer : Type := list Byte.byte.

(** ** External collaborators *)

(** The JSON body the text-extraction route answers with: [null], or an
    object of which the properties [content], [pageCount] and [error] are
    read (a body with none of them has them all [None]). *)
Record Payload : Type := {
  p_content : option string;
  p_pageCount : option N;
  p_error : option string
}.

Inductive JsonValue : Type :=
| JNull
| JObject (p : Payload).

(** A [fetch] response: its [ok] flag and what [response.json()] resolves
    to; a body that is not JSON makes [json] reject. *)
Record Response : Type := {
  ok : bool;
  json : Result JsonValue
}.

(** A cell of the array-of-arrays [sheet_to_json(ws, {header: 1})] returns:
    a hole or [undefined], [null], a string, or a value of another type
    (number, boolean, date) given with its string conversion. *)
Inductive Cell : Type :=
| CUndefined
| CNull
| CString (s : string)
| COther (shown : string).

Definition Row : Type := list Cell.

(** [workbook.SheetNames], and for each name the rows
    [XLSX.utils.sheet_to_json(workbook.Sheets[name], {header: 1})]. *)
Record Workbook : Type := {
  SheetNames : list string;
  sheet_to_json : string -> list Row
}.

(** A record emitted by csv-parser: its own properties in [Object.keys]
    order, each with its string value. *)
Definition CsvRecord : Type := list (string * string).

Record Externals : Type := {
  (** [await fetch(base + '/api/parse-pdf', ...)] for the form data built
      from the buffer, the file name and the file type; a network error and
      the abort after 30 s reject. *)
  fetch_parse_pdf : Buffer -> string -> string -> Result Response;
  (** [XLSX.read(buffer, {type: 'buffer'})]. *)
  XLSX_read : Buffer -> Result Workbook;
  (** The records pushed by the ['data'] events up to ['end'], or the value
      of the ['error'] event. *)
  csv_parse : Buffer -> Result (list CsvRecord)
}.

(** ** Helpers for the expressions of the source *)

Definition dq : string := String (ascii_of_nat 34) "".

(** [cell !== undefined && cell !== null && cell !== ''] *)
Definition cell_nonempty (c : Cell) : bool :=
  match c with
  | CUndefined | CNull => false
  | CString s => negb (String.eqb s "")
  | COther _ => true
  end.

(** The text [Array.prototype.join] gives an element. *)
Definition cell_text (c : Cell) : string :=
  match c with
  | CUndefined | CNull => ""
  | CString s => s
  | COther shown => shown
  end.

Definition join_cells (sep : string) (row : Row) : string :=
  join sep (map cell_text row).

(** [Object.keys(record)], and the record's own property [header]. *)
Definition Object_keys (r : CsvRecord) : list string := map fst r.

Fixpoint record_get (r : CsvRecord) (header : string) : option string :=
  match r with
  | [] => None
  | (k, v) :: rest => if String.eqb k header then Some v else record_get rest header
  end.

(** A record is a plain object, so a read of a property it does not own
    goes on to [Object.prototype].  Its members that are native functions,
    by name; [constructor] is the function [Object], and the accessor
    [__proto__] gives the prototype object itself. *)
Definition Object_prototype_functions : list string :=
  ["__defineGetter__"; "__defineSetter__"; "hasOwnProperty";
   "__lookupGetter__"; "__lookupSetter__"; "isPrototypeOf";
   "propertyIsEnumerable"; "toString"; "valueOf"; "toLocaleString"].

(** The string conversion of [Object.prototype[key]] as Node prints it, for
    the keys [Object.prototype] has; each of these values is truthy. *)
Definition Object_prototype_text (key : string) : option string :=
  if String.eqb key "constructor" then
    Some "function Object() { [native code] }"
  else if String.eqb key "__proto__" then
    Some "[object Object]"
  else if existsb (String.eqb key) Object_prototype_functions then
    Some ("function " ++ key ++ "() { [native code] }")
  else None.

(** [row[header]], given by the text [join] prints for it: the record's own
    value, else the member inherited from [Object.prototype], else
    [undefined]. *)
Definition row_get (r : CsvRecord) (header : string) : option string :=
  match record_get r header with
  | Some v => Some v
  | None => Object_prototype_text header
  end.

(** [a || b] on an optional string and on an optional number. *)
Definition or_string (a : option string) (b : string) : string :=
  match a with
  | Some s => if truthy_string s then s else b
  | None => b
  end.

Definition or_number (a : option N) (b : N) : N :=
  match a with
  | Some n => if truthy_number n then n else b
  | None => b
  end.

Definition len {A : Type} (l : list A) : N := N.of_nat (List.length l).

(** ** The extractors *)

Section Extractors.

Variable E : Externals.

(** The [catch] block of [parsePDF]. *)
Definition parsePDF_fallback (fileName fileType : string) (fileSize : N)
  : ParsedDocument :=
  {| content :=
       "PDF file: " ++ fileName ++ nl ++ nl ++
       "File Information:" ++ nl ++
       "- File Name: " ++ fileName ++ nl ++
       "- File Type: " ++ fileType ++ nl ++
       "- File Size: " ++ toFixed2_div1024 fileSize ++ " KB" ++ nl ++
       "- Document Format: PDF" ++ nl ++ nl ++
       "Note: Could not extract text content from this PDF file. Please try uploading a CSV or Excel file for full content analysis, or describe what you're looking for in this PDF and I can provide guidance.";
     metadata :=
       {| fileName := fileName; fileType := fileType; fileSize := fileSize;
          pageCount := Some 1; sheetNames := None;
          rowCount := None; columnCount := None |} |}.

(** The [try] block of [parsePDF]. *)
Definition parsePDF_try (buffer : Buffer) (fileName fileType : string)
           (fileSize : N) : Result ParsedDocument :=
  response <- fetch_parse_pdf E buffer fileName fileType ;;
  _ <- (if negb (ok response) then
          errorData <- json response ;;
          match errorData with
          | JNull => Throw (JsError "Cannot read properties of null (reading 'error')")
          | JObject p => Throw (JsError (or_string (p_error p) "PDF text extraction failed"))
          end
        else Ok tt) ;;
  data <- json response ;;
  match data with
  | JNull => Throw (JsError "Cannot read properties of null (reading 'content')")
  | JObject p =>
      Ok {| content :=
              or_string (p_content p)
                ("PDF file: " ++ fileName ++ nl ++ nl ++
                 "Note: Could not extract text content from this PDF.");
            metadata :=
              {| fileName := fileName; fileType := fileType; fileSize := fileSize;
                 pageCount := Some (or_number (p_pageCount p) 1);
                 sheetNames := None; rowCount := None; columnCount := None |} |}
  end.

Definition parsePDF (buffer : Buffer) (fileName fileType : string)
           (fileSize : N) : Result ParsedDocument :=
  try_catch (parsePDF_try buffer fileName fileType fileSize)
            (fun _ => Ok (parsePDF_fallback fileName fileType fileSize)).

(** The callback of [dataRows.forEach]: the variable it assigns is
    [content]. *)
Definition excel_row_step (row : Row) (index : N) (content : string) : string :=
  if index <? 10
  then content ++ "Row " ++ string_of_N (index + 1) ++ ": " ++ join_cells " | " row ++ nl
  else content.

(** The body of [for (const sheetName of sheetNames)]: the variables it
    assigns are [content], [totalRows] and [totalColumns]. *)
Definition excel_sheet_step (workbook : Workbook)
           (st : string * N * N) (sheetName : string) : string * N * N :=
  let '(content, totalRows, totalColumns) := st in
  let jsonData := sheet_to_json workbook sheetName in
  let content := content ++ nl ++ nl ++ "=== Sheet: " ++ sheetName ++ " ===" ++ nl in
  match jsonData with
  | [] => (content, totalRows, totalColumns)
  | headers :: rest =>
      let content :=
        if existsb cell_nonempty headers
        then content ++ "Headers: " ++ join_cells " | " headers ++ nl
        else content in
      let dataRows := filter (existsb cell_nonempty) rest in
      let content := content ++ "Data (" ++ string_of_N (len dataRows) ++ " rows):" ++ nl in
      let content := forEach excel_row_step dataRows 0 content in
      let content :=
        if 10 <? len dataRows
        then content ++ "... and " ++ string_of_N (len dataRows - 10) ++ " more rows" ++ nl
        else content in
      (content, totalRows + len dataRows, N.max totalColumns (len headers))
  end.

Definition parseExcel (buffer : Buffer) (fileName fileType : string)
           (fileSize : N) : Result ParsedDocument :=
  workbook <- XLSX_read E buffer ;;
  let sheetNames := SheetNames workbook in
  let '(content, totalRows, totalColumns) :=
    fold_left (excel_sheet_step workbook) sheetNames ("", 0, 0) in
  Ok {| content := trim content;
        metadata :=
          {| fileName := fileName; fileType := fileType; fileSize := fileSize;
             pageCount := None; sheetNames := Some sheetNames;
             rowCount := Some totalRows; columnCount := Some totalColumns |} |}.

(** The callback of [results.slice(0, 20).forEach]. *)
Definition csv_row_step (headers : list string)
           (row : CsvRecord) (index : N) (content : string) : string :=
  let values := join " | " (map (fun header => or_string (row_get row header) "") headers) in
  content ++ "Row " ++ string_of_N (index + 1) ++ ": " ++ values ++ nl.

(** The ['end'] handler of [parseCSV], on the collected [results]. *)
Definition parseCSV_end (results : list CsvRecord) (fileName fileType : string)
           (fileSize : N) : ParsedDocument :=
  let content := "" in
  let content :=
    match results with
    | first :: _ =>
        let headers := Object_keys first in
        let content := content ++ "Headers: " ++ join " | " headers ++ nl in
        let content := content ++ "Data (" ++ string_of_N (len results) ++ " rows):" ++ nl in
        let content := forEach (csv_row_step headers) (firstn 20 results) 0 content in
        if 20 <? len results
        then content ++ "... and " ++ string_of_N (len results - 20) ++ " more rows" ++ nl
        else content
    | [] => content
    end in
  {| content := trim content;
     metadata :=
       {| fileName := fileName; fileType := fileType; fileSize := fileSize;
          pageCount := None; sheetNames := None;
          rowCount := Some (len results);
          columnCount :=
            Some (match results with
                  | first :: _ => len (Object_keys first)
                  | [] => 0
                  end) |} |}.

Definition parseCSV (buffer : Buffer) (fileName fileType : string)
           (fileSize : N) : Result ParsedDocument :=
  results <- csv_parse E buffer ;;
  Ok (parseCSV_end results fileName fileType fileSize).

(** ** The dispatcher *)

(** [fileName.split('.').pop()?.toLowerCase()]; [None] is [undefined]. *)
Definition extension_of (fileName : string) : option string :=
  option_map toLowerCase (pop (split "." fileName)).

(** [`${extension}`] *)
Definition show_extension (extension : option string) : string :=
  match extension with
  | Some e => e
  | None => "undefined"
  end.

Definition is_case (extension : option string) (label : string) : bool :=
  match extension with
  | Some e => String.eqb e label
  | None => false
  end.

(** The [catch] block of [parseDocument]. *)
Definition parseDocument_catch (error : thrown) : Result ParsedDocument :=
  Throw (JsError ("Failed to parse document: " ++
                  match error with
                  | JsError message => message
                  | NotAnError => "Unknown error"
                  end)).

Definition parseDocument (file : File) (fileBuffer : Buffer)
  : Result ParsedDocument :=
  let fileName := name file in
  let fileType := type file in
  let fileSize := size file in
  let extension := extension_of fileName in
  try_catch
    (if is_case extension "pdf" then
       parsePDF fileBuffer fileName fileType fileSize
     else if is_case extension "xlsx" || is_case extension "xls" then
       parseExcel fileBuffer fileName fileType fileSize
     else if is_case extension "csv" then
       parseCSV fileBuffer fileName fileType fileSize
     else
       Throw (JsError ("Unsupported file type: " ++ show_extension extension)))
    parseDocument_catch.

End Extractors.

(** ** The prompt composer *)

(** [if (x)] on an optional number and on an optional string; an array is
    always truthy, so [if (metadata.sheetNames)] is a [match]. *)
Definition if_number (x : option N) : bool :=
  match x with
  | Some n => truthy_number n
  | None => false
  end.

Definition if_string (x : option string) : bool :=
  match x with
  | Some s => truthy_string s
  | None => false
  end.

(** [`${x}`] for a property known to be there when the line is reached. *)
Definition show_number (x : option N) : string :=
  match x with
  | Some n => string_of_N n
  | None => "undefined"
  end.

Definition show_string (x : option string) : string :=
  match x with
  | Some s => s
  | None => "undefined"
  end.

Definition isPDF_of (metadata : Metadata) : bool :=
  String.eqb (fileType metadata) "application/pdf" ||
  endsWith (toLowerCase (fileName metadata)) ".pdf".

Definition hasContent_of (content : string) : bool :=
  Nat.ltb 200 (String.length content) &&
  negb (includes content "Document Analysis Request").

Definition pdf_guidance : string :=
  "Since this is a PDF with limited text extraction, please:" ++ nl ++
  "1. Answer the user's question based on available metadata and any extracted content" ++ nl ++
  "2. Explain what types of information could be found in this PDF" ++ nl ++
  "3. Suggest alternative ways to get the information they need" ++ nl.

Definition generic_guidance : string :=
  "Please provide a helpful response that:" ++ nl ++
  "1. Directly answers the user's question using the document content" ++ nl ++
  "2. References specific text, data, or sections from the document when relevant" ++ nl ++
  "3. Highlights key insights, patterns, or trends found in the document" ++ nl ++
  "4. Provides actionable recommendations based on the document findings" ++ nl ++
  "5. If the document doesn't contain enough information to fully answer the question, explain what information is available and what additional details might be needed" ++ nl.

Definition generateAnalysisPrompt (parsedDoc : ParsedDocument)
           (userMessage : option string) : string :=
  let content := content parsedDoc in
  let metadata := metadata parsedDoc in
  let isPDF := isPDF_of metadata in
  let hasContent := hasContent_of content in
  let prompt :=
    "You are analyzing a document to answer a user's question. Please focus on answering their specific question using the document content." ++ nl ++ nl in
  let prompt := prompt ++ "Document Information:" ++ nl in
  let prompt := prompt ++ "- File: " ++ fileName metadata ++ nl in
  let prompt := prompt ++ "- Type: " ++ fileType metadata ++ nl in
  let prompt := prompt ++ "- Size: " ++ toFixed2_div1024 (fileSize metadata) ++ " KB" ++ nl in
  let prompt :=
    if if_number (pageCount metadata)
    then prompt ++ "- Pages: " ++ show_number (pageCount metadata) ++ nl
    else prompt in
  let prompt :=
    match sheetNames metadata with
    | Some names => prompt ++ "- Sheets: " ++ join ", " names ++ nl
    | None => prompt
    end in
  let prompt :=
    if if_number (rowCount metadata)
    then prompt ++ "- Rows: " ++ show_number (rowCount metadata) ++ nl
    else prompt in
  let prompt :=
    if if_number (columnCount metadata)
    then prompt ++ "- Columns: " ++ show_number (columnCount metadata) ++ nl
    else prompt in
  let prompt := prompt ++ nl ++ "Document Content:" ++ nl ++ content ++ nl ++ nl in
  let prompt :=
    if if_string userMessage
    then
      let prompt :=
        prompt ++ "USER'S QUESTION: " ++ dq ++ show_string userMessage ++ dq ++ nl ++ nl in
      prompt ++ "Please answer the user's question using the document content above. If the document doesn't contain enough information to fully answer their question, let them know what information is available and suggest what additional information might be needed." ++ nl ++ nl
    else
      prompt ++ "The user has uploaded this document without a specific question. Please provide a comprehensive analysis." ++ nl ++ nl in
  let prompt :=
    if isPDF && negb hasContent
    then prompt ++ pdf_guidance
    else prompt ++ generic_guidance in
  prompt.


(** * The routes

    The two HTTP handlers of the repository: [POST /api/parse-pdf], which
    the PDF extractor calls, and [POST /api/chat], which calls
    [parseDocument] and [generateAnalysisPrompt]. *)

(** [NextResponse.json(body, {status})]; the status is 200 when not given. *)
Record HttpResponse (Body : Type) : Type := {
  status : N;
  body : Body
}.
Arguments status {Body} _.
Arguments body {Body} _.

(** ** POST /api/parse-pdf *)

(** What [pdf(buffer)] of pdf-parse resolves to, as far as it is read. *)
Record PdfData : Type := {
  text : string;
  numpages : N
}.

(** The two shapes of body the route answers with. *)
Inductive PdfRouteBody : Type :=
| PdfFailure (error : string) (details : option string)
| PdfText (content_ : string) (pageCount_ : N).

(** The request as the handler reads it: [request.formData()] may reject;
    [formData.get('file')] is the uploaded file with its bytes, or [null]. *)
Definition PdfForm : Type := option (File * Buffer).

(** The handler, over [pdf] of pdf-parse. *)
Definition parse_pdf_POST (pdf : Buffer -> Result PdfData)
           (formData : Result PdfForm) : HttpResponse PdfRouteBody :=
  match
    (form <- formData ;;
     match form with
     | None =>
         Ok {| status := 400; body := PdfFailure "No file provided" None |}
     | Some (_, buffer) =>
         data <- pdf buffer ;;
         Ok {| status := 200; body := PdfText (text data) (numpages data) |}
     end)
  with
  | Ok response => response
  | Throw error =>
      {| status := 500;
         body := PdfFailure "Failed to extract text from PDF"
                   (Some match error with
                         | JsError message => message
                         | NotAnError => "Unknown error"
                         end) |}
  end.

(** The properties [parsePDF] reads of a body of the route. *)
Definition payload_of (b : PdfRouteBody) : Payload :=
  match b with
  | PdfFailure error _ =>
      {| p_content := None; p_pageCount := None; p_error := Some error |}
  | PdfText c n =>
      {| p_content := Some c; p_pageCount := Some n; p_error := None |}
  end.

(** The response [fetch] resolves to when the request reaches the route and
    the answer comes back: [ok] is a status in 200..299. *)
Definition fetched (r : HttpResponse PdfRouteBody) : Response :=
  {| ok := (200 <=? status r) && (status r <=? 299);
     json := Ok (JObject (payload_of (body r))) |}.

(** The collaborators when the extraction service is this repository's own
    route and the request resolves with its answer: no network failure, and
    an answer before the abort at 30 s.  The form data holds the file built
    from the buffer, the name and the type. *)
Definition served_externals (pdf : Buffer -> Result PdfData)
           (xlsx : Buffer -> Result Workbook)
           (csv : Buffer -> Result (list CsvRecord)) : Externals :=
  {| fetch_parse_pdf := fun buffer fname ftype =>
       Ok (fetched
             (parse_pdf_POST pdf
                (Ok (Some ({| name := fname; type := ftype;
                              size := len buffer |}, buffer)))));
     XLSX_read := xlsx;
     csv_parse := csv |}.

(** ** POST /api/chat *)

(** The form of a chat request: [formData.get('message')] ([None] is
    [null]) and [formData.get('file')] with the bytes of the file. *)
Record ChatForm : Type := {
  form_message : option string;
  form_file : option (File * Buffer)
}.

Inductive ChatBody : Type :=
| ChatError (error : string)
| ChatReply (response : string).

(** [message || undefined] *)
Definition or_undefined (message : option string) : option string :=
  match message with
  | Some m => if truthy_string m then Some m else None
  | None => None
  end.

(** The handler, over the extractors' collaborators and over
    [generateText] of the model, which is given the prompt and resolves to
    the text. *)
Definition chat_POST (E : Externals) (generateText : string -> Result string)
           (formData : Result ChatForm) : HttpResponse ChatBody :=
  match
    (form <- formData ;;
     let message := form_message form in
     let file := form_file form in
     if negb (if_string message) && match file with None => true | Some _ => false end
     then Ok {| status := 400; body := ChatError "Message or file is required" |}
     else
       let prompt := or_string message "" in
       match
         match file with
         | Some (file, fileBuffer) =>
             match parseDocument E file fileBuffer with
             | Ok parsedDoc =>
                 inl (generateAnalysisPrompt parsedDoc (or_undefined message))
             | Throw parseError =>
                 inr {| status := 400;
                        body := ChatError
                                  ("Failed to parse document: " ++
                                   match parseError with
                                   | JsError message => message
                                   | NotAnError => "Unknown error"
                                   end) |}
             end
         | None => inl (if if_string message then show_string message else prompt)
         end
       with
       | inr response => Ok response
       | inl prompt =>
           text <- generateText prompt ;;
           Ok {| status := 200; body := ChatReply text |}
       end)
  with
  | Ok response => response
  | Throw _ => {| status := 500; body := ChatError "Failed to generate response" |}
  end.

(** * Specification-level descriptions

    What the specification says of the extractors and of the composer, in
    its own terms; the properties below compare the functions above with
    them. *)

(** The ways the primary path of [parsePDF] fails: the request itself
    rejects (network error, abort at the 30 s deadline), the response is not
    a success, its body is not JSON, or its body is [null]. *)
Inductive primary_failure : Result Response -> Prop :=
| request_rejected (e : thrown) : primary_failure (Throw e)
| non_success (r : Response) : ok r = false -> primary_failure (Ok r)
| body_not_json (r : Response) (e : thrown) :
    json r = Throw e -> primary_failure (Ok r)
| body_null (r : Response) : json r = Ok JNull -> primary_failure (Ok r).


Definition supported_extensions : list string := ["pdf"; "xlsx"; "xls"; "csv"].

(** The descriptor fields of the document are the given ones; those of the
    file. *)
Definition has_descriptor (fname ftype : string) (fsize : N)
           (doc : ParsedDocument) : Prop :=
  fileName (metadata doc) = fname /\
  fileType (metadata doc) = ftype /\
  fileSize (metadata doc) = fsize.

Definition descriptor_copied (file : File) (doc : ParsedDocument) : Prop :=
  has_descriptor (name file) (type file) (size file) doc.

(** *** Rows and their preview *)

(** A cell that is empty or undefined, and a row made of such cells. *)
Definition cell_empty (c : Cell) : bool :=
  match c with
  | CUndefined | CNull => true
  | CString s => String.eqb s ""
  | COther _ => false
  end.

Definition blank_row (row : Row) : bool := forallb cell_empty row.

(** The data rows of a sheet: the rows after the first, blank ones
    discarded. *)
Definition surviving_rows (jsonData : list Row) : list Row :=
  filter (fun row => negb (blank_row row)) (tl jsonData).

(** [Row <n>: ...] lines numbered from [n]. *)
Fixpoint numbered_lines {A : Type} (render : A -> string) (n : N)
         (rows : list A) : string :=
  match rows with
  | [] => ""
  | row :: rest =>
      "Row " ++ string_of_N n ++ ": " ++ render row ++ nl ++
      numbered_lines render (N.succ n) rest
  end.

Definition remainder_line (limit : nat) (total : N) : string :=
  if N.of_nat limit <? total
  then "... and " ++ string_of_N (total - N.of_nat limit) ++ " more rows" ++ nl
  else "".

(** The first [limit] rows, then the count of the others if there are any. *)
Definition preview {A : Type} (render : A -> string) (limit : nat)
           (rows : list A) : string :=
  numbered_lines render 1 (firstn limit rows) ++ remainder_line limit (len rows).

Fixpoint concat_strings (l : list string) : string :=
  match l with
  | [] => ""
  | x :: r => x ++ concat_strings r
  end.

Definition sum_N (l : list N) : N := fold_right N.add 0 l.
Definition max_N (l : list N) : N := fold_right N.max 0 l.

(** *** The spreadsheet document *)

Definition sheet_section (jsonData : list Row) (sheetName : string) : string :=
  nl ++ nl ++ "=== Sheet: " ++ sheetName ++ " ===" ++ nl ++
  match jsonData with
  | [] => ""
  | headers :: _ =>
      (if blank_row headers then ""
       else "Headers: " ++ join_cells " | " headers ++ nl) ++
      "Data (" ++ string_of_N (len (surviving_rows jsonData)) ++ " rows):" ++ nl ++
      preview (join_cells " | ") 10 (surviving_rows jsonData)
  end.

Definition spreadsheet_document (wb : Workbook) (fname ftype : string)
           (fsize : N) : ParsedDocument :=
  let rows_of := sheet_to_json wb in
  {| content :=
       trim (concat_strings
               (map (fun n => sheet_section (rows_of n) n) (SheetNames wb)));
     metadata :=
       {| fileName := fname; fileType := ftype; fileSize := fsize;
          pageCount := None;
          sheetNames := Some (SheetNames wb);
          rowCount :=
            Some (sum_N (map (fun n => len (surviving_rows (rows_of n)))
                             (SheetNames wb)));
          columnCount :=
            Some (max_N (map (fun n => len (hd [] (rows_of n)))
                             (SheetNames wb))) |} |}.

(** *** The delimited-text document *)

(** The values of a record at the given field names, as read by
    [row[header]]; the empty string where there is none. *)
Definition record_values (headers : list string) (row : CsvRecord) : string :=
  join " | "
       (map (fun header => match row_get row header with
                           | Some v => v
                           | None => ""
                           end) headers).

Definition csv_document (results : list CsvRecord) (fname ftype : string)
           (fsize : N) : ParsedDocument :=
  {| content :=
       trim (match results with
             | [] => ""
             | first :: _ =>
                 "Headers: " ++ join " | " (Object_keys first) ++ nl ++
                 "Data (" ++ string_of_N (len results) ++ " rows):" ++ nl ++
                 preview (record_values (Object_keys first)) 20 results
             end);
     metadata :=
       {| fileName := fname; fileType := ftype; fileSize := fsize;
          pageCount := None; sheetNames := None;
          rowCount := Some (len results);
          columnCount :=
            Some (match results with
                  | [] => 0
                  | first :: _ => len first
                  end) |} |}.

(** *** Lines of a text *)

Definition lines (s : string) : list string := split (ascii_of_nat 10) s.

Definition count_lines (s line : string) : nat :=
  count_occ string_dec (lines s) line.

(** *** The prompt *)

(** One line of the metadata block, or nothing. *)
Definition optional_line (label : string) (value : option string) : string :=
  match value with
  | Some v => "- " ++ label ++ ": " ++ v ++ nl
  | None => ""
  end.

(** The optional lines, one for each field that is present. *)
Definition metadata_lines_of_present (m : Metadata) : string :=
  optional_line "Pages" (option_map string_of_N (pageCount m)) ++
  optional_line "Sheets" (option_map (join ", ") (sheetNames m)) ++
  optional_line "Rows" (option_map string_of_N (rowCount m)) ++
  optional_line "Columns" (option_map string_of_N (columnCount m)).

(** A count that is shown: present and not zero. *)
Definition shown_count (x : option N) : option string :=
  match x with
  | Some n => if n =? 0 then None else Some (string_of_N n)
  | None => None
  end.

(** The optional lines, one for each count that is present and not zero, and
    one for the sheet names when present. *)
Definition metadata_lines (m : Metadata) : string :=
  optional_line "Pages" (shown_count (pageCount m)) ++
  optional_line "Sheets" (option_map (join ", ") (sheetNames m)) ++
  optional_line "Rows" (shown_count (rowCount m)) ++
  optional_line "Columns" (shown_count (columnCount m)).

(** The prompt up to the optional lines, and from them on. *)
Definition prompt_head (m : Metadata) : string :=
  "You are analyzing a document to answer a user's question. Please focus on answering their specific question using the document content." ++ nl ++ nl ++
  "Document Information:" ++ nl ++
  "- File: " ++ fileName m ++ nl ++
  "- Type: " ++ fileType m ++ nl ++
  "- Size: " ++ toFixed2_div1024 (fileSize m) ++ " KB" ++ nl.

Definition question_part (userMessage : option string) : string :=
  match userMessage with
  | Some (String c r) =>
      "USER'S QUESTION: " ++ dq ++ String c r ++ dq ++ nl ++ nl ++
      "Please answer the user's question using the document content above. If the document doesn't contain enough information to fully answer their question, let them know what information is available and suggest what additional information might be needed." ++ nl ++ nl
  | _ =>
      "The user has uploaded this document without a specific question. Please provide a comprehensive analysis." ++ nl ++ nl
  end.

Definition prompt_tail (doc : ParsedDocument) (userMessage : option string)
  : string :=
  nl ++ "Document Content:" ++ nl ++ content doc ++ nl ++ nl ++
  question_part userMessage ++
  (if isPDF_of (metadata doc) && negb (hasContent_of (content doc))
   then pdf_guidance else generic_guidance).

(** *** Sample inputs *)

Definition sample_row (i : nat) : Row :=
  [CString ("item" ++ string_of_N (N.of_nat i)); COther (string_of_N (N.of_nat i)); CUndefined].

Definition sample_blank_row : Row := [CUndefined; CString ""; CNull].

(** Two sheets: one with a header row, 15 data rows that are not blank and
    two blank rows among them; and an empty sheet. *)
Definition sample_workbook : Workbook :=
  {| SheetNames := ["Data"; "Empty"];
     sheet_to_json := fun sheetName =>
       if String.eqb sheetName "Data"
       then [CString "name"; CString "qty"; CString "note"]
              :: map sample_row (seq 1 3)
              ++ sample_blank_row :: map sample_row (seq 4 12) ++ [[]]
       else [] |}.

(** The lines of a text that are [Row <n>: ...] lines. *)
Definition row_lines (s : string) : list string :=
  filter (fun line => startsWith line "Row ") (lines s).

Definition sample_record (i : nat) : CsvRecord :=
  [("a", "x" ++ string_of_N (N.of_nat i)); ("b", "y" ++ string_of_N (N.of_nat i)); ("c", "")].

(** The records of a CSV file with the header [a,b,c] and 25 data rows. *)
Definition sample_records : list CsvRecord := map sample_record (seq 1 25).

(** The extraction service is unreachable; the other collaborators read the
    samples. *)
Definition offline_externals : Externals :=
  {| fetch_parse_pdf := fun _ _ _ => Throw (JsError "fetch failed");
     XLSX_read := fun _ => Ok sample_workbook;
     csv_parse := fun _ => Ok sample_records |}.

(** The CSV file holds its header line only: no record is emitted. *)
Definition header_only_externals : Externals :=
  {| fetch_parse_pdf := fun _ _ _ => Throw (JsError "fetch failed");
     XLSX_read := fun _ => Ok {| SheetNames := []; sheet_to_json := fun _ => [] |};
     csv_parse := fun _ => Ok [] |}.

Definition report_pdf : File :=
  {| name := "report.pdf"; type := "application/pdf"; size := 2048 |}.

Definition empty_csv : File :=
  {| name := "empty.csv"; type := "text/csv"; size := 6 |}.

(** The collaborator the extractor of extension [e] depends on gives an
    answer for the buffer; the PDF extractor needs none. *)
Definition collaborator_answers (E : Externals) (e : string) (buffer : Buffer)
  : Prop :=
  e = "pdf" \/
  ((e = "xlsx" \/ e = "xls") /\ exists wb, XLSX_read E buffer = Ok wb) \/
  (e = "csv" /\ exists results, csv_parse E buffer = Ok results).

(** A document with empty content, empty descriptor strings and no optional
    field. *)
Definition degenerate_document : ParsedDocument :=
  {| content := "";
     metadata :=
       {| fileName := ""; fileType := ""; fileSize := 0;
          pageCount := None; sheetNames := None;
          rowCount := None; columnCount := None |} |}.

(** The text a [catch] block takes of what it caught:
    [error instanceof Error ? error.message : 'Unknown error']. *)
Definition error_text (e : thrown) : string :=
  match e with
  | JsError message => message
  | NotAnError => "Unknown error"
  end.

(** * Properties *)

(** ** Strings *)

Section StringFacts.

Lemma append_assoc (a b c : string) : (a ++ b) ++ c = a ++ (b ++ c).
Proof. induction a as [|x a IH]; simpl; [reflexivity | now rewrite IH]. Qed.

Lemma append_nil_r (a : string) : a ++ "" = a.
Proof. induction a as [|x a IH]; simpl; [reflexivity | now rewrite IH]. Qed.

Lemma length_append (a b : string) :
  String.length (a ++ b) = (String.length a + String.length b)%nat.
Proof. induction a as [|x a IH]; simpl; [reflexivity | now rewrite IH]. Qed.

Lemma startsWith_app (p rest : string) : startsWith (p ++ rest) p = true.
Proof.
  induction p as [|x p IH]; simpl; [reflexivity|].
  now rewrite Ascii.eqb_refl.
Qed.

Lemma includes_here (s sub : string) :
  startsWith s sub = true -> includes s sub = true.
Proof. intros H. destruct s; simpl in *; rewrite H; reflexivity. Qed.

Lemma includes_app_r (a s sub : string) :
  includes s sub = true -> includes (a ++ s) sub = true.
Proof.
  intros H. induction a as [|x a IH]; simpl; [exact H|].
  rewrite IH. apply orb_true_r.
Qed.

Lemma includes_app_head (sub rest : string) : includes (sub ++ rest) sub = true.
Proof. apply includes_here, startsWith_app. Qed.

Lemma includes_tail (sub : string) : includes sub sub = true.
Proof.
  rewrite <- (append_nil_r sub) at 1. apply includes_app_head.
Qed.

Lemma trimEnd_nonblank (c : ascii) (r : string) :
  isWhiteSpace c = false -> trimEnd (String c r) <> "".
Proof.
  intros Hc. simpl. destruct (trimEnd r); [rewrite Hc|]; discriminate.
Qed.

(** A string whose first character is not white space is not trimmed
    away. *)
Lemma trim_nonblank (c : ascii) (r : string) :
  isWhiteSpace c = false -> trim (String c r) <> "".
Proof.
  intros Hc. unfold trim. simpl. rewrite Hc. now apply trimEnd_nonblank.
Qed.

Lemma trim_skip (c : ascii) (r : string) :
  isWhiteSpace c = true -> trim (String c r) = trim r.
Proof. intros Hc. unfold trim. simpl. now rewrite Hc. Qed.

Lemma startsWith_dot (c : ascii) (r : string) :
  startsWith (String c r) "." = Ascii.eqb c ".".
Proof.
  cbn [startsWith]. rewrite andb_true_r. apply Ascii.eqb_sym.
Qed.

(** Without a dot [split] returns the whole string as its one piece. *)
Lemma split_no_dot (s : string) :
  includes s "." = false -> split "." s = [s].
Proof.
  induction s as [|c r IH]; [reflexivity|].
  cbn [includes]. rewrite startsWith_dot.
  intros H. apply orb_false_iff in H as [Hc Hr].
  cbn [split]. rewrite Hc, (IH Hr). reflexivity.
Qed.

Lemma split_not_nil (sep : ascii) (s : string) : split sep s <> [].
Proof.
  destruct s as [|c r]; simpl; [discriminate|].
  destruct (Ascii.eqb c sep); [discriminate|].
  destruct (split sep r); discriminate.
Qed.

Lemma pop_defined (l : list string) : l <> [] -> exists x, pop l = Some x.
Proof.
  induction l as [|a l IH]; [congruence|]. intros _.
  destruct l as [|b l]; [now exists a|].
  apply IH. discriminate.
Qed.

Lemma pop_cons (x : string) (l : list string) : l <> [] -> pop (x :: l) = pop l.
Proof. destruct l; [congruence | reflexivity]. Qed.

(** After a separator [split] has at least two pieces. *)
Lemma split_app_sep (sep : ascii) (pre suf : string) :
  exists h t, split sep (pre ++ String sep suf) = h :: t /\ t <> [].
Proof.
  induction pre as [|c r IH]; cbn [append split].
  - rewrite Ascii.eqb_refl. exists "", (split sep suf).
    split; [reflexivity | apply split_not_nil].
  - destruct IH as [h [t [Hs Ht]]]. rewrite Hs.
    destruct (Ascii.eqb c sep).
    + exists "", (h :: t). split; [reflexivity | discriminate].
    + exists (String c h), t. split; [reflexivity | exact Ht].
Qed.

(** The last piece is what follows the last separator. *)
Lemma pop_split_app (sep : ascii) (pre suf : string) :
  pop (split sep (pre ++ String sep suf)) = pop (split sep suf).
Proof.
  induction pre as [|c r IH]; cbn [append split].
  - rewrite Ascii.eqb_refl. apply pop_cons, split_not_nil.
  - destruct (split_app_sep sep r suf) as [h [t [Hs Ht]]].
    rewrite Hs in IH |- *.
    destruct (Ascii.eqb c sep).
    + rewrite pop_cons by discriminate. exact IH.
    + rewrite pop_cons by exact Ht. rewrite <- IH. symmetry.
      now apply pop_cons.
Qed.

End StringFacts.

(** Peels a right-nested concatenation down to the searched piece. *)
Ltac find_piece :=
  repeat first
    [ apply includes_app_head
    | apply includes_tail
    | apply includes_app_r ].

(** ** The size in KB *)

(** [toFixed2_div1024] prints the hundredths [n] nearest to [bytes / 1024]:
    [n / 100] is within half a hundredth of it, ties going up. *)
Lemma toFixed2_nearest (bytes : N) :
  let n := (100 * bytes + 512) / 1024 in
  1024 * n <= 100 * bytes + 512 < 1024 * n + 1024.
Proof.
  cbv zeta.
  pose proof (N.div_mod (100 * bytes + 512) 1024 ltac:(discriminate)) as Hdm.
  pose proof (N.mod_lt (100 * bytes + 512) 1024 ltac:(discriminate)) as Hlt.
  set (q := (100 * bytes + 512) / 1024) in *.
  set (r := (100 * bytes + 512) mod 1024) in *.
  lia.
Qed.

(** ** The PDF extractor *)

Create HintDb doc.
#[local] Hint Constructors primary_failure : doc.

Section PdfFacts.

Variable E : Externals.
Variables (buffer : Buffer) (fname ftype : string) (fsize : N).

(** The [try] block throws exactly on a [primary_failure]. *)
Lemma parsePDF_try_throws :
  primary_failure (fetch_parse_pdf E buffer fname ftype) <->
  exists e, parsePDF_try E buffer fname ftype fsize = Throw e.
Proof.
  unfold parsePDF_try.
  destruct (fetch_parse_pdf E buffer fname ftype) as [r|e0]; cbn [bind].
  - destruct (ok r) eqn:Hok; cbn [negb bind].
    + destruct (json r) as [[|p]|e1] eqn:Hj; cbn [bind]; split.
      * intros _. eauto.
      * intros _. auto with doc.
      * intros H. inversion H; congruence.
      * intros [e He]. discriminate.
      * intros _. eauto.
      * intros _. eauto with doc.
    + split; [intros _ | intros _; auto with doc].
      destruct (json r) as [[|p]|e1]; cbn [bind]; eauto.
  - split; [eauto | auto with doc].
Qed.

(** [parsePDF] never rejects. *)
Lemma parsePDF_total :
  exists doc, parsePDF E buffer fname ftype fsize = Ok doc.
Proof.
  unfold parsePDF.
  destruct (parsePDF_try E buffer fname ftype fsize); cbn; eauto.
Qed.

Lemma parsePDF_on_failure :
  primary_failure (fetch_parse_pdf E buffer fname ftype) ->
  parsePDF E buffer fname ftype fsize =
  Ok (parsePDF_fallback fname ftype fsize).
Proof.
  intros H. apply parsePDF_try_throws in H as [e He].
  unfold parsePDF. rewrite He. reflexivity.
Qed.

(** On success of the [try] block the document is the one built from the
    payload. *)
Lemma parsePDF_cases (doc : ParsedDocument) :
  parsePDF E buffer fname ftype fsize = Ok doc ->
  doc = parsePDF_fallback fname ftype fsize \/
  exists p,
    doc = {| content :=
               or_string (p_content p)
                 ("PDF file: " ++ fname ++ nl ++ nl ++
                  "Note: Could not extract text content from this PDF.");
             metadata :=
               {| fileName := fname; fileType := ftype;
                  fileSize := fsize;
                  pageCount := Some (or_number (p_pageCount p) 1);
                  sheetNames := None; rowCount := None;
                  columnCount := None |} |}.
Proof.
  unfold parsePDF, parsePDF_try.
  destruct (fetch_parse_pdf E buffer fname ftype) as [r|e0]; cbn [bind try_catch].
  - destruct (ok r); cbn [negb bind try_catch].
    + destruct (json r) as [[|p]|e1]; cbn [bind try_catch];
        intros H; inversion H; eauto.
    + destruct (json r) as [[|p]|e1]; cbn [bind try_catch];
        intros H; inversion H; eauto.
  - intros H; inversion H; auto.
Qed.

End PdfFacts.

Lemma includes_app_head2 (a b rest : string) :
  includes (a ++ b ++ rest) (a ++ b) = true.
Proof. rewrite <- append_assoc. apply includes_app_head. Qed.

(** The fixed text of the fallback alone is longer than 200 characters. *)
Lemma parsePDF_fallback_long (fileName fileType : string) (fileSize : N) :
  (200 < String.length (content (parsePDF_fallback fileName fileType fileSize)))%nat.
Proof.
  unfold parsePDF_fallback, nl. cbn [content].
  repeat rewrite length_append. cbn [String.length]. lia.
Qed.



(** C2: the content the PDF fallback emits is always longer than 200
    characters, so [hasContent] is false for it only if it contains the
    marker [hasContent] looks for, which is not a text of the fallback.  For
    [report.pdf] it does not: [hasContent] is true for that document,
    [isPDF && !hasContent] is false, and the prompt ends with the generic
    guidance list, not with the PDF guidance. *)
Theorem pdf_fallback_taken_for_content :
  (forall fname ftype fsize,
      (200 < String.length (content (parsePDF_fallback fname ftype fsize)))%nat) /\
  (forall fname ftype fsize,
      hasContent_of (content (parsePDF_fallback fname ftype fsize)) =
      negb (includes (content (parsePDF_fallback fname ftype fsize))
                     "Document Analysis Request")) /\
  parseDocument offline_externals report_pdf [] =
    Ok (parsePDF_fallback "report.pdf" "application/pdf" 2048) /\
  (let doc := parsePDF_fallback "report.pdf" "application/pdf" 2048 in
   isPDF_of (metadata doc) = true /\
   includes (content doc) "Document Analysis Request" = false /\
   hasContent_of (content doc) = true /\
   endsWith (generateAnalysisPrompt doc None) generic_guidance = true /\
   includes (generateAnalysisPrompt doc None) pdf_guidance = false).
Proof.
  split; [exact parsePDF_fallback_long|].
  split.
  { intros fname ftype fsize. unfold hasContent_of.
    pose proof (parsePDF_fallback_long fname ftype fsize) as Hlong.
    apply Nat.ltb_lt in Hlong. rewrite Hlong. reflexivity. }
  split; [reflexivity|].
  cbv zeta. repeat split; vm_compute; reflexivity.
Qed.

(** ** The dispatcher *)

Section DispatchFacts.

Variable E : Externals.
Variables (file : File) (fileBuffer : Buffer).

(** [pop] of a [split] is never [undefined]. *)
Lemma extension_defined (fname : string) :
  exists e, extension_of fname = Some e.
Proof.
  unfold extension_of.
  destruct (pop_defined (split "." fname) (split_not_nil _ _)) as [x Hx].
  rewrite Hx. cbn. eauto.
Qed.

(** The extension is the lowercased text after the last dot. *)
Lemma extension_after_last_dot (pre suf : string) :
  includes suf "." = false ->
  extension_of (pre ++ "." ++ suf) = Some (toLowerCase suf).
Proof.
  intros Hsuf. unfold extension_of.
  change ("." ++ suf) with (String "." suf).
  rewrite pop_split_app, (split_no_dot _ Hsuf). reflexivity.
Qed.

Lemma parseDocument_pdf :
  extension_of (name file) = Some "pdf" ->
  parseDocument E file fileBuffer =
  parsePDF E fileBuffer (name file) (type file) (size file).
Proof.
  intros Hext. unfold parseDocument. cbv zeta. rewrite Hext. cbn [is_case].
  change (String.eqb "pdf" "pdf") with true. cbv iota.
  destruct (parsePDF_total E fileBuffer (name file) (type file) (size file))
    as [doc Hdoc].
  rewrite Hdoc. reflexivity.
Qed.

Lemma parseDocument_excel :
  extension_of (name file) = Some "xlsx" \/
  extension_of (name file) = Some "xls" ->
  parseDocument E file fileBuffer =
  try_catch (parseExcel E fileBuffer (name file) (type file) (size file))
            parseDocument_catch.
Proof.
  intros [Hext|Hext]; unfold parseDocument; cbv zeta; rewrite Hext;
    reflexivity.
Qed.

Lemma parseDocument_csv :
  extension_of (name file) = Some "csv" ->
  parseDocument E file fileBuffer =
  try_catch (parseCSV E fileBuffer (name file) (type file) (size file))
            parseDocument_catch.
Proof.
  intros Hext. unfold parseDocument. cbv zeta. rewrite Hext. reflexivity.
Qed.

Lemma parseDocument_unsupported (e : string) :
  extension_of (name file) = Some e ->
  ~ In e supported_extensions ->
  parseDocument E file fileBuffer =
  Throw (JsError ("Failed to parse document: Unsupported file type: " ++ e)).
Proof.
  intros Hext Hout. unfold parseDocument. cbv zeta. rewrite Hext.
  cbn [is_case show_extension].
  assert (Hne : forall x, In x supported_extensions -> String.eqb e x = false).
  { intros x Hx. apply String.eqb_neq. intros ->. exact (Hout Hx). }
  unfold supported_extensions in Hne.
  rewrite !Hne by (cbn; tauto). reflexivity.
Qed.

End DispatchFacts.

(** C4: the extension of a file is always defined, and is the lowercased
    text after the last dot of its name.  An extension outside pdf, xlsx,
    xls, csv makes [parseDocument] fail with a message that ends with that
    extension, whatever the collaborators would have answered; pdf goes to
    [parsePDF], xlsx and xls to [parseExcel], csv to [parseCSV]. *)
Theorem parseDocument_dispatch (E : Externals) (file : File) (fileBuffer : Buffer) :
  exists e,
    extension_of (name file) = Some e /\
    (forall pre suf,
        name file = pre ++ "." ++ suf -> includes suf "." = false ->
        e = toLowerCase suf) /\
    (~ In e supported_extensions ->
     forall E' : Externals,
       parseDocument E' file fileBuffer =
       Throw (JsError ("Failed to parse document: Unsupported file type: " ++ e))) /\
    (e = "pdf" ->
     parseDocument E file fileBuffer =
     parsePDF E fileBuffer (name file) (type file) (size file)) /\
    (e = "xlsx" \/ e = "xls" ->
     parseDocument E file fileBuffer =
     try_catch (parseExcel E fileBuffer (name file) (type file) (size file))
               parseDocument_catch) /\
    (e = "csv" ->
     parseDocument E file fileBuffer =
     try_catch (parseCSV E fileBuffer (name file) (type file) (size file))
               parseDocument_catch).
Proof.
  destruct (extension_defined (name file)) as [e He].
  exists e. split; [exact He|]. repeat split.
  - intros pre suf Hname Hsuf.
    rewrite Hname, (extension_after_last_dot pre suf Hsuf) in He. congruence.
  - intros Hout E'. now apply parseDocument_unsupported.
  - intros ->. now apply parseDocument_pdf.
  - intros [-> | ->]; apply parseDocument_excel; auto.
  - intros ->. now apply parseDocument_csv.
Qed.

Lemma parseDocument_dispatch_witness :
  ~ In "docx" supported_extensions /\
  parseDocument offline_externals
    {| name := "Notes.v2.DOCX"; type := "application/msword"; size := 10 |} [] =
  Throw (JsError "Failed to parse document: Unsupported file type: docx").
Proof.
  split; [cbn; intros H; repeat destruct H as [H|H]; try discriminate H; exact H|].
  destruct (parseDocument_dispatch offline_externals
              {| name := "Notes.v2.DOCX"; type := "application/msword"; size := 10 |} [])
    as [e [He [_ [Hout _]]]].
  vm_compute in He. injection He as <-.
  apply Hout.
  cbn; intros H; repeat destruct H as [H|H]; try discriminate H; exact H.
Defined.

(** C10: a file name without a dot is its own extension once lowercased: the
    names pdf, xlsx, xls and csv reach their extractor, and any other such
    name fails with a message that names the whole lowercased file name. *)
Theorem parseDocument_dot_free_name
        (E : Externals) (file : File) (fileBuffer : Buffer) :
  includes (name file) "." = false ->
  extension_of (name file) = Some (toLowerCase (name file)) /\
  (toLowerCase (name file) = "pdf" ->
   parseDocument E file fileBuffer =
   parsePDF E fileBuffer (name file) (type file) (size file)) /\
  (toLowerCase (name file) = "xlsx" \/ toLowerCase (name file) = "xls" ->
   parseDocument E file fileBuffer =
   try_catch (parseExcel E fileBuffer (name file) (type file) (size file))
             parseDocument_catch) /\
  (toLowerCase (name file) = "csv" ->
   parseDocument E file fileBuffer =
   try_catch (parseCSV E fileBuffer (name file) (type file) (size file))
             parseDocument_catch) /\
  (~ In (toLowerCase (name file)) supported_extensions ->
   parseDocument E file fileBuffer =
   Throw (JsError ("Failed to parse document: Unsupported file type: " ++
                   toLowerCase (name file)))).
Proof.
  intros Hdot.
  assert (Hext : extension_of (name file) = Some (toLowerCase (name file))).
  { unfold extension_of. rewrite (split_no_dot _ Hdot). reflexivity. }
  split; [exact Hext|]. repeat split.
  - intros Hl. apply parseDocument_pdf. now rewrite Hext, Hl.
  - intros [Hl|Hl]; apply parseDocument_excel; rewrite Hext, Hl; auto.
  - intros Hl. apply parseDocument_csv. now rewrite Hext, Hl.
  - intros Hout. now apply parseDocument_unsupported.
Qed.

Lemma parseDocument_dot_free_name_witness :
  parseDocument offline_externals {| name := "CSV"; type := ""; size := 0 |} [] =
  Ok (parseCSV_end sample_records "CSV" "" 0) /\
  parseDocument offline_externals {| name := "README"; type := ""; size := 0 |} [] =
  Throw (JsError "Failed to parse document: Unsupported file type: readme").
Proof.
  split.
  - destruct (parseDocument_dot_free_name offline_externals
                {| name := "CSV"; type := ""; size := 0 |} [] eq_refl)
      as [_ [_ [_ [Hcsv _]]]].
    rewrite (Hcsv eq_refl). reflexivity.
  - destruct (parseDocument_dot_free_name offline_externals
                {| name := "README"; type := ""; size := 0 |} [] eq_refl)
      as [_ [_ [_ [_ Hother]]]].
    apply Hother.
    cbn; intros H; repeat destruct H as [H|H]; try discriminate H; exact H.
Defined.

(** ** Descriptor fields *)

Section DescriptorFacts.

Variable E : Externals.
Variables (buffer : Buffer) (fname ftype : string) (fsize : N).

Lemma parsePDF_descriptor (doc : ParsedDocument) :
  parsePDF E buffer fname ftype fsize = Ok doc -> has_descriptor fname ftype fsize doc.
Proof.
  intros H. apply parsePDF_cases in H as [-> | [p ->]]; repeat split.
Qed.

Lemma parseExcel_descriptor (doc : ParsedDocument) :
  parseExcel E buffer fname ftype fsize = Ok doc -> has_descriptor fname ftype fsize doc.
Proof.
  unfold parseExcel.
  destruct (XLSX_read E buffer) as [wb|e]; cbn [bind]; [|discriminate].
  destruct (fold_left _ _ _) as [[c r] k].
  intros H. injection H as <-. repeat split.
Qed.

Lemma parseExcel_resolves (wb : Workbook) :
  XLSX_read E buffer = Ok wb ->
  exists doc, parseExcel E buffer fname ftype fsize = Ok doc.
Proof.
  intros Hwb. unfold parseExcel. rewrite Hwb. cbn [bind].
  destruct (fold_left _ _ _) as [[c r] k]. eauto.
Qed.

Lemma parseCSV_descriptor (doc : ParsedDocument) :
  parseCSV E buffer fname ftype fsize = Ok doc -> has_descriptor fname ftype fsize doc.
Proof.
  unfold parseCSV.
  destruct (csv_parse E buffer) as [results|e]; cbn [bind]; [|discriminate].
  intros H. injection H as <-. repeat split.
Qed.

End DescriptorFacts.

Lemma try_catch_ok {A : Type} (body : Result A) (handler : thrown -> Result A)
      (a : A) :
  (forall e, handler e <> Ok a) ->
  try_catch body handler = Ok a -> body = Ok a.
Proof.
  intros Hh. destruct body as [x|e]; cbn; [auto|].
  intros H. now elim (Hh e).
Qed.

Lemma parseDocument_catch_throws (e : thrown) (doc : ParsedDocument) :
  parseDocument_catch e <> Ok doc.
Proof. discriminate. Qed.

(** C8: a document returned by [parseDocument] carries the name, the
    declared type and the byte size of the file it was given; and for each
    supported extension a document is returned as soon as the collaborator
    of its extractor answers. *)
Theorem parseDocument_copies_descriptor
        (E : Externals) (file : File) (fileBuffer : Buffer) :
  (forall doc,
      parseDocument E file fileBuffer = Ok doc -> descriptor_copied file doc) /\
  (forall e,
      extension_of (name file) = Some e ->
      In e supported_extensions ->
      collaborator_answers E e fileBuffer ->
      exists doc,
        parseDocument E file fileBuffer = Ok doc /\ descriptor_copied file doc).
Proof.
  assert (Hdoc : forall doc,
             parseDocument E file fileBuffer = Ok doc -> descriptor_copied file doc).
  { intros doc Hok.
    destruct (extension_defined (name file)) as [e He].
    destruct (in_dec string_dec e supported_extensions) as [Hin|Hout].
    - cbn in Hin. destruct Hin as [<-|[<-|[<-|[<-|[]]]]].
      + rewrite (parseDocument_pdf E file fileBuffer He) in Hok.
        exact (parsePDF_descriptor _ _ _ _ _ _ Hok).
      + rewrite (parseDocument_excel E file fileBuffer (or_introl He)) in Hok.
        apply try_catch_ok in Hok; [|intro; apply parseDocument_catch_throws].
        exact (parseExcel_descriptor _ _ _ _ _ _ Hok).
      + rewrite (parseDocument_excel E file fileBuffer (or_intror He)) in Hok.
        apply try_catch_ok in Hok; [|intro; apply parseDocument_catch_throws].
        exact (parseExcel_descriptor _ _ _ _ _ _ Hok).
      + rewrite (parseDocument_csv E file fileBuffer He) in Hok.
        apply try_catch_ok in Hok; [|intro; apply parseDocument_catch_throws].
        exact (parseCSV_descriptor _ _ _ _ _ _ Hok).
    - rewrite (parseDocument_unsupported E file fileBuffer e He Hout) in Hok.
      discriminate. }
  split; [exact Hdoc|].
  intros e He _ Hans.
  assert (Hex : exists doc, parseDocument E file fileBuffer = Ok doc).
  { destruct Hans as [-> | [[Hx [wb Hwb]] | [-> [results Hres]]]].
    - rewrite (parseDocument_pdf E file fileBuffer He). apply parsePDF_total.
    - assert (Hx' : extension_of (name file) = Some "xlsx" \/
                    extension_of (name file) = Some "xls")
        by (destruct Hx as [<-|<-]; auto).
      rewrite (parseDocument_excel E file fileBuffer Hx').
      destruct (parseExcel_resolves E fileBuffer (name file) (type file)
                  (size file) wb Hwb) as [doc Hd].
      rewrite Hd. cbn. eauto.
    - rewrite (parseDocument_csv E file fileBuffer He).
      unfold parseCSV. rewrite Hres. cbn. eauto. }
  destruct Hex as [doc Hd]. exists doc. split; [exact Hd | exact (Hdoc doc Hd)].
Qed.

Lemma parseDocument_copies_descriptor_witness :
  exists doc,
    parseDocument offline_externals
      {| name := "Book.XLSX"; type := "application/vnd.ms-excel"; size := 4096 |} [] =
    Ok doc /\
    fileName (metadata doc) = "Book.XLSX" /\
    fileType (metadata doc) = "application/vnd.ms-excel" /\
    fileSize (metadata doc) = 4096.
Proof.
  destruct (parseDocument_copies_descriptor offline_externals
              {| name := "Book.XLSX"; type := "application/vnd.ms-excel"; size := 4096 |} [])
    as [_ Hsome].
  apply (Hsome "xlsx").
  - reflexivity.
  - cbn. tauto.
  - right. left. split; [now left|]. eexists. reflexivity.
Defined.

(** ** Row previews *)

Lemma cell_nonempty_not_empty (c : Cell) : cell_nonempty c = negb (cell_empty c).
Proof. destruct c; reflexivity. Qed.

(** The filter of the source keeps a row exactly when it is not blank. *)
Lemma some_cell_nonempty (row : Row) :
  existsb cell_nonempty row = negb (blank_row row).
Proof.
  unfold blank_row. induction row as [|c row IH]; [reflexivity|].
  cbn [existsb forallb]. rewrite IH, cell_nonempty_not_empty, negb_andb.
  reflexivity.
Qed.

Lemma dataRows_surviving (headers : Row) (rest : list Row) :
  filter (existsb cell_nonempty) rest = surviving_rows (headers :: rest).
Proof. unfold surviving_rows. cbn [tl]. apply filter_ext, some_cell_nonempty. Qed.

(** The [forEach] of [parseExcel] writes the rows whose index is below 10. *)
Lemma forEach_excel_rows (rows : list Row) :
  forall (index : N) (content : string),
    forEach excel_row_step rows index content =
    content ++ numbered_lines (join_cells " | ") (index + 1)
                 (firstn (N.to_nat (10 - index)) rows).
Proof.
  induction rows as [|row rows IH]; intros index content.
  - cbn [forEach]. rewrite firstn_nil. cbn. now rewrite append_nil_r.
  - cbn [forEach]. rewrite IH. unfold excel_row_step.
    destruct (index <? 10) eqn:Hlt.
    + apply N.ltb_lt in Hlt.
      replace (N.to_nat (10 - index)) with (S (N.to_nat (10 - N.succ index))) by lia.
      cbn [firstn numbered_lines].
      replace (N.succ index + 1) with (N.succ (index + 1)) by lia.
      now rewrite !append_assoc.
    + apply N.ltb_ge in Hlt.
      replace (10 - N.succ index) with 0 by lia.
      replace (10 - index) with 0 by lia.
      reflexivity.
Qed.

Lemma or_string_empty (x : option string) :
  or_string x "" = match x with Some v => v | None => "" end.
Proof.
  destruct x as [v|]; [|reflexivity].
  unfold or_string, truthy_string.
  destruct (String.eqb_spec v ""); cbn; congruence.
Qed.

Lemma csv_values (headers : list string) (row : CsvRecord) :
  join " | " (map (fun header => or_string (row_get row header) "") headers) =
  record_values headers row.
Proof.
  unfold record_values. f_equal. apply map_ext. intros h. apply or_string_empty.
Qed.

(** The [forEach] of [parseCSV] writes every row of the slice it is given. *)
Lemma forEach_csv_rows (headers : list string) (rows : list CsvRecord) :
  forall (index : N) (content : string),
    forEach (csv_row_step headers) rows index content =
    content ++ numbered_lines (record_values headers) (index + 1) rows.
Proof.
  induction rows as [|row rows IH]; intros index content.
  - cbn. now rewrite append_nil_r.
  - cbn [forEach numbered_lines]. rewrite IH. unfold csv_row_step.
    rewrite csv_values.
    replace (N.succ index + 1) with (N.succ (index + 1)) by lia.
    now rewrite !append_assoc.
Qed.

Lemma remainder_line_spec (limit : nat) (total : N) (content : string) :
  (if N.of_nat limit <? total
   then content ++ "... and " ++ string_of_N (total - N.of_nat limit) ++ " more rows" ++ nl
   else content) =
  content ++ remainder_line limit total.
Proof.
  unfold remainder_line. destruct (N.of_nat limit <? total); [reflexivity|].
  now rewrite append_nil_r.
Qed.

(** ** The spreadsheet extractor *)

Section ExcelFacts.

Variable wb : Workbook.

(** One turn of the loop over the sheets adds the section of the sheet, its
    surviving rows and the length of its header row. *)
Lemma excel_sheet_step_spec (content : string) (totalRows totalColumns : N)
      (sheetName : string) :
  excel_sheet_step wb (content, totalRows, totalColumns) sheetName =
  (content ++ sheet_section (sheet_to_json wb sheetName) sheetName,
   totalRows + len (surviving_rows (sheet_to_json wb sheetName)),
   N.max totalColumns (len (hd [] (sheet_to_json wb sheetName)))).
Proof.
  unfold excel_sheet_step, sheet_section.
  destruct (sheet_to_json wb sheetName) as [|headers rest].
  - cbn [hd surviving_rows tl filter len List.length N.of_nat].
    rewrite N.add_0_r, N.max_0_r.
    now rewrite ?append_assoc, ?append_nil_r.
  - cbn [hd]. rewrite (dataRows_surviving headers rest).
    set (dataRows := surviving_rows (headers :: rest)).
    rewrite forEach_excel_rows, (remainder_line_spec 10 (len dataRows)).
    rewrite some_cell_nonempty.
    f_equal. f_equal. unfold preview.
    change (N.to_nat (10 - 0)) with 10%nat. change (0 + 1) with 1.
    destruct (blank_row headers); cbn [negb]; now rewrite !append_assoc.
Qed.

Lemma excel_loop_spec (names : list string) :
  forall (content : string) (totalRows totalColumns : N),
    fold_left (excel_sheet_step wb) names (content, totalRows, totalColumns) =
    (content ++ concat_strings
                  (map (fun n => sheet_section (sheet_to_json wb n) n) names),
     totalRows + sum_N (map (fun n => len (surviving_rows (sheet_to_json wb n))) names),
     N.max totalColumns
           (max_N (map (fun n => len (hd [] (sheet_to_json wb n))) names))).
Proof.
  induction names as [|n names IH]; intros content totalRows totalColumns.
  - cbn. now rewrite append_nil_r, N.add_0_r, N.max_0_r.
  - cbn [fold_left map concat_strings sum_N max_N fold_right].
    rewrite excel_sheet_step_spec, IH.
    fold (sum_N (map (fun n => len (surviving_rows (sheet_to_json wb n))) names)).
    fold (max_N (map (fun n => len (hd [] (sheet_to_json wb n))) names)).
    now rewrite append_assoc, N.add_assoc, N.max_assoc.
Qed.

End ExcelFacts.

(** [parseExcel] on a workbook that was read is the document the
    specification describes. *)
Lemma parseExcel_spec (E : Externals) (buffer : Buffer) (wb : Workbook)
      (fname ftype : string) (fsize : N) :
  XLSX_read E buffer = Ok wb ->
  parseExcel E buffer fname ftype fsize =
  Ok (spreadsheet_document wb fname ftype fsize).
Proof.
  intros Hwb. unfold parseExcel. rewrite Hwb. cbn [bind].
  rewrite excel_loop_spec. cbn [append]. rewrite N.add_0_l, N.max_0_l.
  reflexivity.
Qed.

(** ** The delimited-text extractor *)

(** A record that lacks a field named like a member of [Object.prototype]
    is written with that member, not with the empty string. *)
Example parseCSV_inherited_member :
  content (parseCSV_end [[("a", "1"); ("toString", "2")]; [("a", "3")]]
                        "t.csv" "text/csv" 20) =
  "Headers: a | toString" ++ nl ++
  "Data (2 rows):" ++ nl ++
  "Row 1: 1 | 2" ++ nl ++
  "Row 2: 3 | function toString() { [native code] }".
Proof. reflexivity. Qed.

Lemma parseCSV_end_spec (results : list CsvRecord) (fname ftype : string)
      (fsize : N) :
  parseCSV_end results fname ftype fsize = csv_document results fname ftype fsize.
Proof.
  unfold parseCSV_end, csv_document.
  destruct results as [|first rest]; [reflexivity|].
  set (results := first :: rest).
  rewrite (remainder_line_spec 20 (len results)), forEach_csv_rows.
  f_equal.
  - f_equal. unfold preview. change (0 + 1) with 1.
    rewrite !append_assoc. reflexivity.
  - unfold Object_keys, len. now rewrite length_map.
Qed.

(** C5: [parseExcel] returns the document in which, for each sheet, the rows
    after the first that are not blank are counted into [rowCount], the first
    10 of them are written as [Row <n>: ...] lines and the others are
    counted on one [... and N more rows] line.  For the sample workbook (a
    sheet with 15 data rows that are not blank and two that are, and an empty
    sheet): [rowCount = 15], two sheet names, ten row lines, and exactly one
    line [... and 5 more rows]. *)
Theorem parseExcel_preview
        (E : Externals) (buffer : Buffer) (wb : Workbook)
        (fname ftype : string) (fsize : N) :
  XLSX_read E buffer = Ok wb ->
  parseExcel E buffer fname ftype fsize =
    Ok (spreadsheet_document wb fname ftype fsize) /\
  (forall jsonData row,
      In row (surviving_rows jsonData) <->
      In row (tl jsonData) /\ blank_row row = false) /\
  (forall jsonData,
      (List.length (firstn 10 (surviving_rows jsonData)) <= 10)%nat) /\
  (exists doc,
      parseExcel offline_externals [] "stock.xlsx" "application/vnd.ms-excel" 9000 =
        Ok doc /\
      rowCount (metadata doc) = Some 15 /\
      option_map (@List.length string) (sheetNames (metadata doc)) = Some 2%nat /\
      List.length (row_lines (content doc)) = 10%nat /\
      count_lines (content doc) "... and 5 more rows" = 1%nat).
Proof.
  intros Hwb. split; [now apply parseExcel_spec|]. split; [|split].
  - intros jsonData row. unfold surviving_rows. rewrite filter_In.
    now rewrite negb_true_iff.
  - intros jsonData. apply firstn_le_length.
  - eexists. split; [apply parseExcel_spec; reflexivity|].
    repeat split; vm_compute; reflexivity.
Qed.

Lemma parseExcel_preview_witness :
  parseExcel offline_externals [] "stock.xlsx" "application/vnd.ms-excel" 9000 =
  Ok (spreadsheet_document sample_workbook "stock.xlsx" "application/vnd.ms-excel" 9000).
Proof.
  exact (proj1 (parseExcel_preview offline_externals [] sample_workbook
                  "stock.xlsx" "application/vnd.ms-excel" 9000 eq_refl)).
Defined.

(** C6: [parseCSV] reports every record in [rowCount] and the number of
    fields of the first record (0 without records) in [columnCount], and
    writes the first 20 records as [Row <n>: ...] lines, each with what
    [row[header]] reads at the field names of the first record, the others
    being counted on one line.  For the 25 sample records with fields a, b, c:
    [columnCount = 3], [rowCount = 25], rows 1 to 20 written, no line for
    rows 21 to 25, and a line [... and 5 more rows]. *)
Theorem parseCSV_counts_and_preview
        (E : Externals) (buffer : Buffer) (results : list CsvRecord)
        (fname ftype : string) (fsize : N) :
  csv_parse E buffer = Ok results ->
  (exists doc,
      parseCSV E buffer fname ftype fsize = Ok doc /\
      doc = csv_document results fname ftype fsize /\
      rowCount (metadata doc) = Some (len results) /\
      columnCount (metadata doc) =
        Some (match results with
              | [] => 0
              | first :: _ => len first
              end)) /\
  (List.length (firstn 20 results) <= 20)%nat /\
  (exists doc,
      parseCSV offline_externals [] "data.csv" "text/csv" 700 = Ok doc /\
      columnCount (metadata doc) = Some 3 /\
      rowCount (metadata doc) = Some 25 /\
      row_lines (content doc) =
        map (fun i => "Row " ++ string_of_N (N.of_nat i) ++ ": " ++
                      record_values ["a"; "b"; "c"] (sample_record i))
            (seq 1 20) /\
      count_lines (content doc) "... and 5 more rows" = 1%nat).
Proof.
  intros Hres. split; [|split].
  - eexists. split; [|split; [|split]].
    + unfold parseCSV. rewrite Hres. cbn [bind]. rewrite parseCSV_end_spec.
      reflexivity.
    + reflexivity.
    + reflexivity.
    + reflexivity.
  - apply firstn_le_length.
  - eexists. split; [reflexivity|].
    repeat split; vm_compute; reflexivity.
Qed.

Lemma parseCSV_counts_and_preview_witness :
  exists doc,
    parseCSV offline_externals [] "data.csv" "text/csv" 700 = Ok doc /\
    doc = csv_document sample_records "data.csv" "text/csv" 700 /\
    rowCount (metadata doc) = Some (len sample_records) /\
    columnCount (metadata doc) = Some 3.
Proof.
  exact (proj1 (parseCSV_counts_and_preview offline_externals [] sample_records
                  "data.csv" "text/csv" 700 eq_refl)).
Defined.

(** ** The prompt composer *)

Lemma if_append (c : bool) (p x : string) :
  (if c then p ++ x else p) = p ++ (if c then x else "").
Proof. destruct c; [reflexivity | now rewrite append_nil_r]. Qed.

Lemma number_line (label : string) (x : option N) :
  (if if_number x then "- " ++ label ++ ": " ++ show_number x ++ nl else "") =
  optional_line label (shown_count x).
Proof.
  destruct x as [n|]; [|reflexivity].
  unfold if_number, truthy_number, shown_count.
  destruct (n =? 0); reflexivity.
Qed.

Lemma question_text (userMessage : option string) (p : string) :
  (if if_string userMessage
   then
     (p ++ "USER'S QUESTION: " ++ dq ++ show_string userMessage ++ dq ++ nl ++ nl) ++
     "Please answer the user's question using the document content above. If the document doesn't contain enough information to fully answer their question, let them know what information is available and suggest what additional information might be needed." ++ nl ++ nl
   else
     p ++ "The user has uploaded this document without a specific question. Please provide a comprehensive analysis." ++ nl ++ nl) =
  p ++ question_part userMessage.
Proof.
  destruct userMessage as [[|c r]|]; cbn [if_string truthy_string String.eqb negb];
    try reflexivity.
  unfold question_part, show_string. now rewrite !append_assoc.
Qed.

(** The prompt is its fixed head, the optional lines, and its tail. *)
Lemma prompt_decomposition (doc : ParsedDocument) (userMessage : option string) :
  generateAnalysisPrompt doc userMessage =
  prompt_head (metadata doc) ++ metadata_lines (metadata doc) ++
  prompt_tail doc userMessage.
Proof.
  unfold generateAnalysisPrompt. cbv zeta.
  rewrite question_text.
  rewrite !if_append.
  change "- Pages: " with ("- " ++ "Pages" ++ ": ").
  change "- Rows: " with ("- " ++ "Rows" ++ ": ").
  change "- Columns: " with ("- " ++ "Columns" ++ ": ").
  rewrite !append_assoc.
  rewrite !number_line.
  unfold prompt_head, metadata_lines, prompt_tail.
  destruct (sheetNames (metadata doc)) as [names|];
    destruct (isPDF_of (metadata doc) && negb (hasContent_of (content doc)));
    cbn [option_map optional_line]; rewrite !append_assoc; reflexivity.
Qed.

(** C7 as stated fails: the document of a CSV file without records has
    [rowCount] and [columnCount] present (both 0), and its prompt has neither
    a Rows line nor a Columns line. *)
Lemma present_zero_count_has_no_line :
  exists doc,
    parseDocument header_only_externals empty_csv [] = Ok doc /\
    rowCount (metadata doc) = Some 0 /\
    columnCount (metadata doc) = Some 0 /\
    includes (generateAnalysisPrompt doc None) "- Rows:" = false /\
    includes (generateAnalysisPrompt doc None) "- Columns:" = false /\
    generateAnalysisPrompt doc None <>
      prompt_head (metadata doc) ++ metadata_lines_of_present (metadata doc) ++
      prompt_tail doc None.
Proof.
  eexists. split; [reflexivity|].
  repeat split; try (vm_compute; reflexivity).
  vm_compute. discriminate.
Qed.

(** C7, amended: between its fixed head and its tail the prompt has one line
    for each of [pageCount], [rowCount], [columnCount] that is present and
    not zero, one line for [sheetNames] when present, and nothing for a field
    that is absent or a count that is zero.  The extractors leave absent the
    fields that are not of their format: a PDF document has only
    [pageCount], a spreadsheet document has no [pageCount], a CSV document
    has neither [pageCount] nor [sheetNames]. *)
Theorem prompt_metadata_lines
        (doc : ParsedDocument) (userMessage : option string) :
  generateAnalysisPrompt doc userMessage =
    prompt_head (metadata doc) ++ metadata_lines (metadata doc) ++
    prompt_tail doc userMessage /\
  (forall E buffer fname ftype fsize d,
      parsePDF E buffer fname ftype fsize = Ok d ->
      pageCount (metadata d) <> None /\ sheetNames (metadata d) = None /\
      rowCount (metadata d) = None /\ columnCount (metadata d) = None) /\
  (forall E buffer fname ftype fsize d,
      parseExcel E buffer fname ftype fsize = Ok d ->
      pageCount (metadata d) = None /\ sheetNames (metadata d) <> None /\
      rowCount (metadata d) <> None /\ columnCount (metadata d) <> None) /\
  (forall E buffer fname ftype fsize d,
      parseCSV E buffer fname ftype fsize = Ok d ->
      pageCount (metadata d) = None /\ sheetNames (metadata d) = None /\
      rowCount (metadata d) <> None /\ columnCount (metadata d) <> None).
Proof.
  split; [apply prompt_decomposition|]. split; [|split].
  - intros E buffer fname ftype fsize d H.
    apply parsePDF_cases in H as [-> | [p ->]]; cbn; repeat split; discriminate.
  - intros E buffer fname ftype fsize d. unfold parseExcel.
    destruct (XLSX_read E buffer) as [wb|e]; cbn [bind]; [|discriminate].
    destruct (fold_left _ _ _) as [[c r] k].
    intros H. injection H as <-. cbn. repeat split; discriminate.
  - intros E buffer fname ftype fsize d. unfold parseCSV.
    destruct (csv_parse E buffer) as [results|e]; cbn [bind]; [|discriminate].
    intros H. injection H as <-. cbn. repeat split; discriminate.
Qed.

Lemma prompt_metadata_lines_witness :
  generateAnalysisPrompt (parseCSV_end sample_records "data.csv" "text/csv" 700) None =
  prompt_head (metadata (parseCSV_end sample_records "data.csv" "text/csv" 700)) ++
  ("- Rows: 25" ++ nl ++ "- Columns: 3" ++ nl) ++
  prompt_tail (parseCSV_end sample_records "data.csv" "text/csv" 700) None.
Proof.
  exact (proj1 (prompt_metadata_lines
                  (parseCSV_end sample_records "data.csv" "text/csv" 700) None)).
Defined.

(** C9: [generateAnalysisPrompt] returns a string for every document and
    every optional message, the same string for the same arguments; the
    string starts with the fixed head and is never empty.  On the degenerate
    document (empty content, no optional field) without a message it
    returns the head, the content heading, the request for a comprehensive
    analysis and the generic guidance. *)
Theorem generateAnalysisPrompt_total
        (doc : ParsedDocument) (userMessage : option string) :
  (exists prompt,
      generateAnalysisPrompt doc userMessage = prompt /\
      startsWith prompt (prompt_head (metadata doc)) = true /\
      prompt <> "") /\
  (forall doc' userMessage',
      doc' = doc -> userMessage' = userMessage ->
      generateAnalysisPrompt doc' userMessage' =
      generateAnalysisPrompt doc userMessage) /\
  generateAnalysisPrompt degenerate_document None =
    prompt_head (metadata degenerate_document) ++
    nl ++ "Document Content:" ++ nl ++ nl ++ nl ++
    "The user has uploaded this document without a specific question. Please provide a comprehensive analysis." ++ nl ++ nl ++
    generic_guidance.
Proof.
  split; [|split].
  - eexists. split; [reflexivity|]. rewrite prompt_decomposition. split.
    + apply startsWith_app.
    + unfold prompt_head. discriminate.
  - intros doc' userMessage' -> ->. reflexivity.
  - vm_compute. reflexivity.
Qed.

Lemma generateAnalysisPrompt_total_witness :
  generateAnalysisPrompt degenerate_document None <> "" /\
  generateAnalysisPrompt degenerate_document None =
  generateAnalysisPrompt degenerate_document None.
Proof.
  destruct (generateAnalysisPrompt_total degenerate_document None)
    as [[prompt [Hp [_ Hne]]] [Hsame _]].
  split.
  - rewrite Hp. exact Hne.
  - exact (Hsame degenerate_document None eq_refl eq_refl).
Defined.

(** ** Emptiness of the content *)

Lemma or_string_nonempty (x : option string) (placeholder : string) :
  placeholder <> "" -> or_string x placeholder <> "".
Proof.
  intros Hp. destruct x as [s|]; [|exact Hp].
  unfold or_string, truthy_string.
  destruct (String.eqb_spec s ""); cbn; assumption.
Qed.

Lemma sheet_sections_nonblank (wb : Workbook) (n : string) (names : list string) :
  trim (concat_strings
          (map (fun n => sheet_section (sheet_to_json wb n) n) (n :: names))) <> "".
Proof.
  cbn [map concat_strings]. unfold sheet_section, nl.
  rewrite !append_assoc. cbn [append].
  rewrite 2 trim_skip by reflexivity.
  apply trim_nonblank. reflexivity.
Qed.

(** C1 as stated fails: a CSV file that holds only its header line is
    accepted, and the content of its document is the empty string. *)
Lemma csv_without_records_has_empty_content :
  exists doc,
    parseDocument header_only_externals empty_csv [] = Ok doc /\
    content doc = "".
Proof. eexists. split; reflexivity. Qed.

(** C1, amended: the content of a PDF document is never empty (extracted
    text, or one of the two placeholders); the content of a spreadsheet
    document is empty only for a workbook without sheets, so not for one
    whose sheets are all empty; the content of a CSV document is empty
    exactly when there is no record. *)
Theorem content_nonempty_cases
        (E : Externals) (buffer : Buffer) (fname ftype : string) (fsize : N) :
  (exists doc,
      parsePDF E buffer fname ftype fsize = Ok doc /\ content doc <> "") /\
  (forall wb,
      XLSX_read E buffer = Ok wb ->
      exists doc,
        parseExcel E buffer fname ftype fsize = Ok doc /\
        (content doc = "" <-> SheetNames wb = [])) /\
  (forall results,
      csv_parse E buffer = Ok results ->
      exists doc,
        parseCSV E buffer fname ftype fsize = Ok doc /\
        (content doc = "" <-> results = [])).
Proof.
  split; [|split].
  - destruct (parsePDF_total E buffer fname ftype fsize) as [doc Hdoc].
    exists doc. split; [exact Hdoc|].
    apply parsePDF_cases in Hdoc as [-> | [p ->]]; cbn [content].
    + discriminate.
    + apply or_string_nonempty. discriminate.
  - intros wb Hwb. eexists. split; [exact (parseExcel_spec _ _ wb _ _ _ Hwb)|].
    cbn [content spreadsheet_document].
    destruct (SheetNames wb) as [|n names].
    + split; reflexivity.
    + split; [|discriminate].
      intros H. now apply sheet_sections_nonblank in H.
  - intros results Hres. eexists. split.
    + unfold parseCSV. rewrite Hres. cbn [bind]. rewrite parseCSV_end_spec.
      reflexivity.
    + cbn [content csv_document]. destruct results as [|first rest].
      * split; reflexivity.
      * split; [|discriminate].
        intros H. exfalso. revert H. apply trim_nonblank. reflexivity.
Qed.

Lemma content_nonempty_cases_witness :
  exists doc,
    parseExcel offline_externals [] "stock.xlsx" "application/vnd.ms-excel" 9000 =
      Ok doc /\
    (content doc = "" <-> SheetNames sample_workbook = []).
Proof.
  exact (proj1 (proj2 (content_nonempty_cases offline_externals []
                         "stock.xlsx" "application/vnd.ms-excel" 9000))
               sample_workbook eq_refl).
Defined.

(** * Further properties of the normalizer *)

(** ** Errors of the dispatcher *)

(** X1: whatever [parseDocument] throws is an [Error] whose message is
    [Failed to parse document: ] followed by its cause, and the cause is the
    unsupported extension, or the text of what [XLSX.read] threw for an
    xlsx or xls file, or of what the CSV stream emitted as its error for a
    csv file; a pdf file never makes it throw. *)
Theorem parseDocument_error_causes
        (E : Externals) (file : File) (fileBuffer : Buffer) (e : thrown) :
  parseDocument E file fileBuffer = Throw e ->
  exists ext cause,
    extension_of (name file) = Some ext /\
    e = JsError ("Failed to parse document: " ++ cause) /\
    ext <> "pdf" /\
    ((~ In ext supported_extensions /\
      cause = "Unsupported file type: " ++ ext) \/
     ((ext = "xlsx" \/ ext = "xls") /\
      exists e0, XLSX_read E fileBuffer = Throw e0 /\ cause = error_text e0) \/
     (ext = "csv" /\
      exists e0, csv_parse E fileBuffer = Throw e0 /\ cause = error_text e0)).
Proof.
  intros Hthrow.
  destruct (extension_defined (name file)) as [ext He].
  exists ext.
  destruct (in_dec string_dec ext supported_extensions) as [Hin|Hout].
  - cbn in Hin. destruct Hin as [<-|[<-|[<-|[<-|[]]]]].
    + rewrite (parseDocument_pdf E file fileBuffer He) in Hthrow.
      destruct (parsePDF_total E fileBuffer (name file) (type file) (size file))
        as [doc Hdoc].
      congruence.
    + rewrite (parseDocument_excel E file fileBuffer (or_introl He)) in Hthrow.
      unfold parseExcel in Hthrow.
      destruct (XLSX_read E fileBuffer) as [wb|e0] eqn:Hread; cbn [bind] in Hthrow.
      * destruct (fold_left _ _ _) as [[c r] k]. discriminate.
      * cbn in Hthrow. injection Hthrow as <-.
        exists (error_text e0).
        split; [exact He|]. split; [reflexivity|]. split; [discriminate|].
        right. left. split; [now left | eauto].
    + rewrite (parseDocument_excel E file fileBuffer (or_intror He)) in Hthrow.
      unfold parseExcel in Hthrow.
      destruct (XLSX_read E fileBuffer) as [wb|e0] eqn:Hread; cbn [bind] in Hthrow.
      * destruct (fold_left _ _ _) as [[c r] k]. discriminate.
      * cbn in Hthrow. injection Hthrow as <-.
        exists (error_text e0).
        split; [exact He|]. split; [reflexivity|]. split; [discriminate|].
        right. left. split; [now right | eauto].
    + rewrite (parseDocument_csv E file fileBuffer He) in Hthrow.
      unfold parseCSV in Hthrow.
      destruct (csv_parse E fileBuffer) as [rs|e0] eqn:Hread; cbn in Hthrow;
        [discriminate|].
      injection Hthrow as <-.
      exists (error_text e0).
        split; [exact He|]. split; [reflexivity|]. split; [discriminate|].
      right. right. split; [reflexivity | eauto].
  - rewrite (parseDocument_unsupported E file fileBuffer ext He Hout) in Hthrow.
    injection Hthrow as <-.
    exists ("Unsupported file type: " ++ ext).
    split; [exact He|]. split; [reflexivity|]. split.
    + intros ->. apply Hout. cbn. tauto.
    + left. split; [exact Hout | reflexivity].
Qed.

Lemma parseDocument_error_causes_witness :
  exists ext cause,
    extension_of "ledger.XLS" = Some ext /\
    JsError "Failed to parse document: File is password-protected" =
      JsError ("Failed to parse document: " ++ cause) /\
    ext <> "pdf" /\
    ((~ In ext supported_extensions /\
      cause = "Unsupported file type: " ++ ext) \/
     ((ext = "xlsx" \/ ext = "xls") /\
      exists e0,
        @Throw Workbook (JsError "File is password-protected") = Throw e0 /\
        cause = error_text e0) \/
     (ext = "csv" /\
      exists e0,
        @Ok (list CsvRecord) [] = Throw e0 /\ cause = error_text e0)).
Proof.
  exact (parseDocument_error_causes
           {| fetch_parse_pdf := fun _ _ _ => Throw NotAnError;
              XLSX_read := fun _ => Throw (JsError "File is password-protected");
              csv_parse := fun _ => Ok [] |}
           {| name := "ledger.XLS"; type := ""; size := 512 |} []
           (JsError "Failed to parse document: File is password-protected")
           eq_refl).
Defined.

(** ** Shape of the extension *)

Lemma startsWith_char (c sep : ascii) (r : string) :
  startsWith (String c r) (String sep "") = Ascii.eqb sep c.
Proof. cbn [startsWith]. apply andb_true_r. Qed.

(** The last piece of a [split] holds no separator. *)
Lemma pop_split_no_sep (sep : ascii) (s x : string) :
  pop (split sep s) = Some x -> includes x (String sep "") = false.
Proof.
  revert x. induction s as [|c r IH]; intros x; cbn [split].
  - intros H. injection H as <-. reflexivity.
  - destruct (Ascii.eqb c sep) eqn:Hc.
    + rewrite pop_cons by apply split_not_nil. apply IH.
    + destruct (split sep r) as [|h t] eqn:Hs; [now elim (split_not_nil sep r)|].
      destruct t as [|h' t'].
      * intros H. injection H as <-.
        cbn [includes]. rewrite startsWith_char, (Ascii.eqb_sym sep c), Hc.
        apply (IH h). reflexivity.
      * rewrite pop_cons by discriminate. intros H. apply IH.
        rewrite pop_cons by discriminate. exact H.
Qed.

Lemma toLowerCase_char_idem (c : ascii) :
  toLowerCase_char (toLowerCase_char c) = toLowerCase_char c.
Proof. destruct c as [[] [] [] [] [] [] [] []]; reflexivity. Qed.

Lemma toLowerCase_char_dot (c : ascii) :
  Ascii.eqb "." (toLowerCase_char c) = Ascii.eqb "." c.
Proof. destruct c as [[] [] [] [] [] [] [] []]; reflexivity. Qed.

Lemma toLowerCase_idem (s : string) : toLowerCase (toLowerCase s) = toLowerCase s.
Proof.
  induction s as [|c r IH]; [reflexivity|].
  cbn [toLowerCase]. now rewrite toLowerCase_char_idem, IH.
Qed.

Lemma toLowerCase_dots (s : string) :
  includes (toLowerCase s) "." = includes s ".".
Proof.
  induction s as [|c r IH]; [reflexivity|].
  cbn [toLowerCase includes]. rewrite !startsWith_char, toLowerCase_char_dot, IH.
  reflexivity.
Qed.

(** X2: the extension [parseDocument] dispatches on holds no dot and is
    already lowercase. *)
Theorem extension_shape (fname ext : string) :
  extension_of fname = Some ext ->
  includes ext "." = false /\ toLowerCase ext = ext.
Proof.
  unfold extension_of. intros H.
  destruct (pop (split "." fname)) as [x|] eqn:Hpop; [|discriminate].
  injection H as <-.
  split.
  - rewrite toLowerCase_dots. exact (pop_split_no_sep "." fname x Hpop).
  - apply toLowerCase_idem.
Qed.

Lemma extension_shape_witness :
  includes "gz" "." = false /\ toLowerCase "gz" = "gz".
Proof. exact (extension_shape "Backup.2024.tar.GZ" "gz" eq_refl). Defined.

(** ** The PDF extractor: page count and extracted text *)

Lemma or_number_positive (x : option N) : 1 <= or_number x 1.
Proof.
  destruct x as [n|]; cbn; [|lia].
  unfold truthy_number. destruct (N.eqb_spec n 0); cbn; lia.
Qed.

(** X3: every document [parsePDF] returns has a page count, and it is at
    least 1 (a reported count of 0 is replaced by 1). *)
Theorem parsePDF_page_count_positive
        (E : Externals) (buffer : Buffer) (fname ftype : string) (fsize : N)
        (doc : ParsedDocument) :
  parsePDF E buffer fname ftype fsize = Ok doc ->
  exists n, pageCount (metadata doc) = Some n /\ 1 <= n.
Proof.
  intros H. apply parsePDF_cases in H as [-> | [p ->]]; cbn.
  - exists 1. split; [reflexivity | lia].
  - eexists. split; [reflexivity | apply or_number_positive].
Qed.

Lemma parsePDF_page_count_positive_witness :
  exists n,
    pageCount (metadata (parsePDF_fallback "report.pdf" "application/pdf" 2048)) =
      Some n /\ 1 <= n.
Proof.
  exact (parsePDF_page_count_positive offline_externals [] "report.pdf"
           "application/pdf" 2048 _ eq_refl).
Defined.

(** X4: when the request succeeds with a JSON object, [parsePDF] returns the
    extracted text unchanged if it is not empty, and the reported page count
    unchanged if it is not 0; an empty or missing text gives the short
    placeholder, which names the file, and a missing or zero count gives 1. *)
Theorem parsePDF_success
        (E : Externals) (buffer : Buffer) (fname ftype : string) (fsize : N)
        (r : Response) (p : Payload) :
  fetch_parse_pdf E buffer fname ftype = Ok r ->
  ok r = true ->
  json r = Ok (JObject p) ->
  exists doc,
    parsePDF E buffer fname ftype fsize = Ok doc /\
    has_descriptor fname ftype fsize doc /\
    (forall t, p_content p = Some t -> t <> "" -> content doc = t) /\
    (p_content p = None \/ p_content p = Some "" ->
     content doc =
       "PDF file: " ++ fname ++ nl ++ nl ++
       "Note: Could not extract text content from this PDF.") /\
    (forall n, p_pageCount p = Some n -> n <> 0 ->
               pageCount (metadata doc) = Some n) /\
    (p_pageCount p = None \/ p_pageCount p = Some 0 ->
     pageCount (metadata doc) = Some 1).
Proof.
  intros Hf Hok Hj. unfold parsePDF, parsePDF_try.
  rewrite Hf. cbn [bind]. rewrite Hok. cbn [negb bind]. rewrite Hj.
  cbn [bind try_catch]. eexists. split; [reflexivity|].
  split; [repeat split|]. cbn [content metadata pageCount].
  split; [|split; [|split]].
  - intros t -> Ht. unfold or_string, truthy_string.
    destruct (String.eqb_spec t ""); [contradiction | reflexivity].
  - intros [-> | ->]; reflexivity.
  - intros n -> Hn. unfold or_number, truthy_number.
    destruct (N.eqb_spec n 0); [contradiction | reflexivity].
  - intros [-> | ->]; reflexivity.
Qed.

Lemma parsePDF_success_witness :
  exists doc,
    parsePDF
      {| fetch_parse_pdf := fun _ _ _ =>
           Ok {| ok := true;
                 json := Ok (JObject {| p_content := Some "Quarterly report";
                                        p_pageCount := Some 0;
                                        p_error := None |}) |};
         XLSX_read := fun _ => Throw NotAnError;
         csv_parse := fun _ => Throw NotAnError |}
      [] "q3.pdf" "application/pdf" 100 = Ok doc /\
    content doc = "Quarterly report" /\
    pageCount (metadata doc) = Some 1.
Proof.
  destruct (parsePDF_success
              {| fetch_parse_pdf := fun _ _ _ =>
                   Ok {| ok := true;
                         json := Ok (JObject {| p_content := Some "Quarterly report";
                                                p_pageCount := Some 0;
                                                p_error := None |}) |};
                 XLSX_read := fun _ => Throw NotAnError;
                 csv_parse := fun _ => Throw NotAnError |}
              [] "q3.pdf" "application/pdf" 100 _ _ eq_refl eq_refl eq_refl)
    as [doc [Hdoc [_ [Htext [_ [_ Hpages]]]]]].
  exists doc. split; [exact Hdoc|]. split.
  - apply Htext; [reflexivity | discriminate].
  - apply Hpages. now right.
Defined.

(** ** Which guidance closes the prompt *)

(** The prompt ends with one of the two guidance lists, chosen by
    [isPDF && !hasContent]. *)
Lemma prompt_guidance (doc : ParsedDocument) (userMessage : option string) :
  exists before,
    generateAnalysisPrompt doc userMessage =
    before ++ (if isPDF_of (metadata doc) && negb (hasContent_of (content doc))
               then pdf_guidance else generic_guidance).
Proof.
  rewrite prompt_decomposition. unfold prompt_tail.
  eexists. rewrite <- !append_assoc. reflexivity.
Qed.



(** ** The content is trimmed *)

Lemma trimEnd_idem (s : string) : trimEnd (trimEnd s) = trimEnd s.
Proof.
  induction s as [|c r IH]; [reflexivity|].
  cbn [trimEnd]. destruct (trimEnd r) as [|d t] eqn:Ht.
  - destruct (isWhiteSpace c) eqn:Hc; [reflexivity|].
    cbn [trimEnd]. now rewrite Hc.
  - cbn [trimEnd]. cbn [trimEnd] in IH.
    destruct (trimEnd t) as [|d' t'].
    + destruct (isWhiteSpace d); [discriminate|]. now rewrite IH.
    + now rewrite IH.
Qed.

Lemma trimEnd_head (c : ascii) (r : string) :
  isWhiteSpace c = false -> exists r', trimEnd (String c r) = String c r'.
Proof.
  intros Hc. cbn [trimEnd]. destruct (trimEnd r); [rewrite Hc|]; eauto.
Qed.

Lemma trimStart_cases (s : string) :
  trimStart s = "" \/
  exists c r, trimStart s = String c r /\ isWhiteSpace c = false.
Proof.
  induction s as [|c r IH]; [now left|].
  cbn [trimStart]. destruct (isWhiteSpace c) eqn:Hc; [exact IH|].
  right. eauto.
Qed.

(** What [trim] returns neither starts nor ends with white space. *)
Lemma trim_trimmed (s : string) :
  trimStart (trim s) = trim s /\ trimEnd (trim s) = trim s.
Proof.
  unfold trim. split; [|apply trimEnd_idem].
  destruct (trimStart_cases s) as [-> | [c [r [-> Hc]]]]; [reflexivity|].
  destruct (trimEnd_head c r Hc) as [r' ->]. cbn [trimStart]. now rewrite Hc.
Qed.

(** [trimEnd] keeps a prefix that ends with a character that is not white
    space. *)
Lemma trimEnd_keeps_prefix (q : string) (c : ascii) (rest : string) :
  isWhiteSpace c = false ->
  exists rest', trimEnd (q ++ String c rest) = q ++ String c rest'.
Proof.
  intros Hc. induction q as [|d q IH]; cbn [append].
  - now apply trimEnd_head.
  - destruct IH as [rest' IH]. exists rest'. cbn [trimEnd]. rewrite IH.
    destruct q; reflexivity.
Qed.

Lemma startsWith_app_more (p a b : string) :
  startsWith a p = true -> startsWith (a ++ b) p = true.
Proof.
  revert a. induction p as [|x p IH]; intros a; [reflexivity|].
  destruct a as [|y a]; cbn [startsWith append]; [discriminate|].
  intros H. apply andb_true_iff in H as [Hxy Hp].
  rewrite Hxy. cbn. now apply IH.
Qed.

(** A text that starts with [q] and a character that is not white space
    still does after [trim], whatever [q] ends with. *)
Lemma trim_keeps_start (q : string) (c : ascii) (rest : string) :
  isWhiteSpace c = false ->
  trimStart (q ++ String c rest) = q ++ String c rest ->
  exists rest', trim (q ++ String c rest) = (q ++ String c "") ++ rest'.
Proof.
  intros Hc Hs. unfold trim. rewrite Hs.
  destruct (trimEnd_keeps_prefix q c rest Hc) as [rest' ->].
  exists rest'. now rewrite append_assoc.
Qed.

Lemma trim_skip_nl (s : string) : trim (nl ++ s) = trim s.
Proof. exact (trim_skip (ascii_of_nat 10) s eq_refl). Qed.

Lemma sheet_sections_start (wb : Workbook) (n : string) (names : list string) :
  exists rest,
    concat_strings
      (map (fun n => sheet_section (sheet_to_json wb n) n) (n :: names)) =
    nl ++ nl ++ ("=== Sheet: " ++ n ++ " ==") ++ String "=" rest.
Proof.
  cbn [map concat_strings]. unfold sheet_section.
  eexists. rewrite !append_assoc. reflexivity.
Qed.

(** X6: the content of a spreadsheet document and of a CSV document neither
    starts nor ends with white space; when the workbook has a sheet the
    content starts with the marker of its first sheet, and when the CSV file
    has a record the content starts with [Headers: ]. *)
Theorem tabular_content_trimmed
        (E : Externals) (buffer : Buffer) (fname ftype : string) (fsize : N) :
  (forall wb,
      XLSX_read E buffer = Ok wb ->
      exists doc,
        parseExcel E buffer fname ftype fsize = Ok doc /\
        trimStart (content doc) = content doc /\
        trimEnd (content doc) = content doc /\
        (forall n names,
            SheetNames wb = n :: names ->
            startsWith (content doc) ("=== Sheet: " ++ n ++ " ===") = true)) /\
  (forall results,
      csv_parse E buffer = Ok results ->
      exists doc,
        parseCSV E buffer fname ftype fsize = Ok doc /\
        trimStart (content doc) = content doc /\
        trimEnd (content doc) = content doc /\
        (results <> [] -> startsWith (content doc) "Headers: " = true)).
Proof.
  split.
  - intros wb Hwb. eexists. split; [exact (parseExcel_spec _ _ wb _ _ _ Hwb)|].
    cbn [content spreadsheet_document].
    split; [apply trim_trimmed|]. split; [apply trim_trimmed|].
    intros n names ->.
    destruct (sheet_sections_start wb n names) as [rest ->].
    rewrite 2 trim_skip_nl.
    destruct (trim_keeps_start ("=== Sheet: " ++ n ++ " ==") "=" rest eq_refl eq_refl)
      as [rest' ->].
    replace ("=== Sheet: " ++ n ++ " ===")
      with (("=== Sheet: " ++ n ++ " ==") ++ String "=" "")
      by (rewrite !append_assoc; reflexivity).
    apply startsWith_app.
  - intros results Hres. eexists. split.
    + unfold parseCSV. rewrite Hres. cbn [bind]. rewrite parseCSV_end_spec.
      reflexivity.
    + cbn [content csv_document].
      split; [apply trim_trimmed|]. split; [apply trim_trimmed|].
      destruct results as [|first rest]; [congruence|]. intros _.
      set (J := join " | " (Object_keys first)).
      set (tail := string_of_N (len (first :: rest)) ++ " rows):" ++ nl ++
                   preview (record_values (Object_keys first)) 20 (first :: rest)).
      replace ("Headers: " ++ J ++ nl ++ "Data (" ++ tail)
        with (("Headers: " ++ J ++ nl) ++ String "D" ("ata (" ++ tail))
        by (rewrite !append_assoc; reflexivity).
      destruct (trim_keeps_start ("Headers: " ++ J ++ nl) "D" ("ata (" ++ tail)
                  eq_refl eq_refl) as [rest' ->].
      rewrite !append_assoc. apply startsWith_app_more. reflexivity.
Qed.

Lemma tabular_content_trimmed_witness :
  exists doc,
    parseExcel offline_externals [] "stock.xlsx" "" 9000 = Ok doc /\
    trimStart (content doc) = content doc /\
    trimEnd (content doc) = content doc /\
    startsWith (content doc) "=== Sheet: Data ===" = true.
Proof.
  destruct (proj1 (tabular_content_trimmed offline_externals [] "stock.xlsx" "" 9000)
              sample_workbook eq_refl) as [doc [Hdoc [Hs [He Hm]]]].
  exists doc. repeat split; try assumption.
  exact (Hm "Data" ["Empty"] eq_refl).
Defined.

(** * Properties of the routes *)

(** Opens the hypotheses of a case and closes it by the equations at hand. *)
Ltac settle_cases :=
  repeat match goal with
         | H : exists _, _ |- _ => destruct H
         | H : _ /\ _ |- _ => destruct H
         | H : _ \/ _ |- _ => destruct H
         end;
  try discriminate; try congruence; eauto 9.

(** ** POST /api/parse-pdf *)

(** X7: the extraction route answers 400 exactly when the form holds no
    file, 200 exactly when pdf-parse resolves, then with its text and page
    count unchanged, and 500 with the fixed error text exactly when reading
    the form or pdf-parse fails. *)
Theorem parse_pdf_POST_responses
        (pdf : Buffer -> Result PdfData) (formData : Result PdfForm) :
  (status (parse_pdf_POST pdf formData) = 400 <-> formData = Ok None) /\
  (status (parse_pdf_POST pdf formData) = 200 <->
   exists file buffer data,
     formData = Ok (Some (file, buffer)) /\ pdf buffer = Ok data) /\
  (status (parse_pdf_POST pdf formData) = 500 <->
   (exists e, formData = Throw e) \/
   (exists file buffer e,
       formData = Ok (Some (file, buffer)) /\ pdf buffer = Throw e)) /\
  (forall file buffer data,
      formData = Ok (Some (file, buffer)) -> pdf buffer = Ok data ->
      body (parse_pdf_POST pdf formData) = PdfText (text data) (numpages data)) /\
  (status (parse_pdf_POST pdf formData) = 500 ->
   exists details,
     body (parse_pdf_POST pdf formData) =
     PdfFailure "Failed to extract text from PDF" (Some details)).
Proof.
  unfold parse_pdf_POST.
  destruct formData as [[[file buffer]|]|e]; cbn [bind];
    [destruct (pdf buffer) as [data|e] eqn:Hpdf; cbn [bind status body]| |];
    cbn [status body]; repeat split; intros; settle_cases.
Qed.

(** X8: when the request of [parsePDF] resolves with the answer of the
    repository's own route for the bytes (no network failure, and no abort
    at the 30 s deadline, which would give the fallback whatever pdf-parse
    does), [parsePDF] returns the fallback document exactly when pdf-parse
    fails on the bytes; otherwise it returns the text pdf-parse extracted
    (the short placeholder when that text is empty) and its page count (1
    when that count is 0). *)
Theorem parsePDF_served
        (E : Externals) (pdf : Buffer -> Result PdfData) (file : File)
        (buffer : Buffer) (fname ftype : string) (fsize : N) :
  fetch_parse_pdf E buffer fname ftype =
    Ok (fetched (parse_pdf_POST pdf (Ok (Some (file, buffer))))) ->
  parsePDF E buffer fname ftype fsize =
  Ok match pdf buffer with
     | Throw _ => parsePDF_fallback fname ftype fsize
     | Ok data =>
         {| content :=
              if String.eqb (text data) ""
              then "PDF file: " ++ fname ++ nl ++ nl ++
                   "Note: Could not extract text content from this PDF."
              else text data;
            metadata :=
              {| fileName := fname; fileType := ftype; fileSize := fsize;
                 pageCount := Some (if numpages data =? 0 then 1 else numpages data);
                 sheetNames := None; rowCount := None; columnCount := None |} |}
     end.
Proof.
  intros Hfetch. unfold parsePDF, parsePDF_try. rewrite Hfetch.
  unfold parse_pdf_POST. cbn [bind].
  destruct (pdf buffer) as [data|e]; cbn.
  - unfold or_string, or_number, truthy_string, truthy_number.
    destruct (String.eqb (text data) ""), (numpages data =? 0); reflexivity.
  - reflexivity.
Qed.

Lemma parsePDF_served_witness :
  parsePDF (served_externals (fun _ => Ok {| text := ""; numpages := 4 |})
                             (fun _ => Throw NotAnError)
                             (fun _ => Throw NotAnError))
           [] "scan.pdf" "application/pdf" 0 =
  Ok {| content := "PDF file: scan.pdf" ++ nl ++ nl ++
                   "Note: Could not extract text content from this PDF.";
        metadata :=
          {| fileName := "scan.pdf"; fileType := "application/pdf";
             fileSize := 0; pageCount := Some 4;
             sheetNames := None; rowCount := None; columnCount := None |} |}.
Proof.
  exact (parsePDF_served
           (served_externals (fun _ => Ok {| text := ""; numpages := 4 |})
                             (fun _ => Throw NotAnError)
                             (fun _ => Throw NotAnError))
           (fun _ => Ok {| text := ""; numpages := 4 |})
           {| name := "scan.pdf"; type := "application/pdf"; size := 0 |}
           [] "scan.pdf" "application/pdf" 0 eq_refl).
Defined.

(** ** POST /api/chat *)

(** Replaces a form known by an equation with its fields. *)
Ltac open_form :=
  try (match goal with
       | Hf : Ok _ = Ok ?form |- _ => injection Hf as <-
       end; cbn in *; congruence).

Lemma parseDocument_throws_prefixed
      (E : Externals) (file : File) (fileBuffer : Buffer) (e : thrown) :
  parseDocument E file fileBuffer = Throw e ->
  exists cause, e = JsError ("Failed to parse document: " ++ cause).
Proof.
  unfold parseDocument. cbv zeta.
  match goal with |- try_catch ?b _ = _ -> _ => destruct b as [a|e0] end;
    cbn; [discriminate|].
  intros H. injection H as <-. eauto.
Qed.

(** X9: when the uploaded file cannot be parsed, the chat route answers 400
    and its error text carries the prefix twice, once from [parseDocument]
    and once from the route: [Failed to parse document: Failed to parse
    document: <cause>]; the model is not called, the answer being the same
    for every [generateText]. *)
Theorem chat_POST_parse_failure
        (E : Externals) (generateText : string -> Result string)
        (message : option string) (file : File) (fileBuffer : Buffer)
        (e : thrown) :
  parseDocument E file fileBuffer = Throw e ->
  exists cause,
    e = JsError ("Failed to parse document: " ++ cause) /\
    forall generateText',
      chat_POST E generateText'
        (Ok {| form_message := message; form_file := Some (file, fileBuffer) |}) =
      {| status := 400;
         body := ChatError ("Failed to parse document: Failed to parse document: " ++
                            cause) |}.
Proof.
  intros Hthrow.
  destruct (parseDocument_throws_prefixed E file fileBuffer e Hthrow) as [cause ->].
  exists cause. split; [reflexivity|].
  intros g. unfold chat_POST. cbn [bind form_message form_file].
  rewrite andb_false_r, Hthrow. reflexivity.
Qed.

Lemma chat_POST_parse_failure_witness :
  chat_POST offline_externals (fun _ => Ok "unused")
    (Ok {| form_message := Some "Summarise this";
           form_file := Some ({| name := "notes.txt"; type := "text/plain";
                                 size := 12 |}, []) |}) =
  {| status := 400;
     body := ChatError "Failed to parse document: Failed to parse document: Unsupported file type: txt" |}.
Proof.
  destruct (chat_POST_parse_failure offline_externals (fun _ => Ok "unused")
              (Some "Summarise this")
              {| name := "notes.txt"; type := "text/plain"; size := 12 |} []
              _ eq_refl) as [cause [Hc Hall]].
  injection Hc as <-. apply Hall.
Defined.

(** X10: a chat request with a message and no file sends the message itself
    to the model, with no scaffolding: the answer is 200 with the model's
    text, or 500 with the fixed error text when the model call fails. *)
Theorem chat_POST_message_only
        (E : Externals) (generateText : string -> Result string) (m : string) :
  m <> "" ->
  chat_POST E generateText
    (Ok {| form_message := Some m; form_file := None |}) =
  match generateText m with
  | Ok text => {| status := 200; body := ChatReply text |}
  | Throw _ => {| status := 500; body := ChatError "Failed to generate response" |}
  end.
Proof.
  intros Hm. unfold chat_POST. cbn [bind form_message form_file if_string].
  unfold truthy_string. destruct (String.eqb_spec m ""); [contradiction|].
  cbn [negb andb show_string]. destruct (generateText m); reflexivity.
Qed.

Lemma chat_POST_message_only_witness :
  chat_POST offline_externals (fun prompt => Ok ("echo: " ++ prompt))
    (Ok {| form_message := Some "hello"; form_file := None |}) =
  {| status := 200; body := ChatReply "echo: hello" |}.
Proof.
  apply (chat_POST_message_only offline_externals
           (fun prompt => Ok ("echo: " ++ prompt)) "hello").
  discriminate.
Defined.

(** X11: a chat request with a file that parses sends the model the
    analysis prompt of the parsed document, with the message as the question
    when it is not empty and as no question otherwise; the answer is 200
    with the model's text, or 500 when the model call fails. *)
Theorem chat_POST_with_document
        (E : Externals) (generateText : string -> Result string)
        (message : option string) (file : File) (fileBuffer : Buffer)
        (parsedDoc : ParsedDocument) :
  parseDocument E file fileBuffer = Ok parsedDoc ->
  chat_POST E generateText
    (Ok {| form_message := message; form_file := Some (file, fileBuffer) |}) =
  match generateText (generateAnalysisPrompt parsedDoc (or_undefined message)) with
  | Ok text => {| status := 200; body := ChatReply text |}
  | Throw _ => {| status := 500; body := ChatError "Failed to generate response" |}
  end /\
  generateAnalysisPrompt parsedDoc (or_undefined message) =
  generateAnalysisPrompt parsedDoc message.
Proof.
  intros Hdoc. split.
  - unfold chat_POST. cbn [bind form_message form_file].
    rewrite andb_false_r, Hdoc.
    destruct (generateText _); reflexivity.
  - destruct message as [[|c r]|]; reflexivity.
Qed.

Lemma chat_POST_with_document_witness :
  chat_POST offline_externals (fun _ => Throw NotAnError)
    (Ok {| form_message := Some ""; form_file := Some (report_pdf, []) |}) =
  {| status := 500; body := ChatError "Failed to generate response" |}.
Proof.
  exact (proj1 (chat_POST_with_document offline_externals
                  (fun _ => Throw NotAnError) (Some "") report_pdf []
                  _ eq_refl)).
Defined.

(** The model call of a chat request fails: the prompt the route sends,
    the analysis prompt of the parsed file or else the message itself, makes
    [generateText] reject. *)
Lemma chat_500_cases
      (E : Externals) (generateText : string -> Result string)
      (form : ChatForm) :
  status (chat_POST E generateText (Ok form)) = 500 <->
  exists e,
    (exists file fileBuffer doc,
        form_file form = Some (file, fileBuffer) /\
        parseDocument E file fileBuffer = Ok doc /\
        generateText (generateAnalysisPrompt doc (or_undefined (form_message form))) =
          Throw e) \/
    (exists m,
        form_file form = None /\ form_message form = Some m /\ m <> "" /\
        generateText m = Throw e).
Proof.
  destruct form as [message [[file fileBuffer]|]]; unfold chat_POST;
    cbn [bind form_message form_file].
  - rewrite andb_false_r.
    destruct (parseDocument E file fileBuffer) as [doc|e1] eqn:Hparse.
    + destruct (generateText _) as [text|e2] eqn:Hgen; cbn [bind status body].
      * split; [discriminate|]. intros [e [[f [b [d [Hf [Hp Hg]]]]] | [m [Hf _]]]];
          [|discriminate]. congruence.
      * split; [|reflexivity]. intros _. exists e2. left. eauto 6.
    + cbn [status body]. split; [discriminate|].
      intros [e [[f [b [d [Hf [Hp Hg]]]]] | [m [Hf _]]]]; [|discriminate].
      congruence.
  - rewrite andb_true_r. destruct message as [m|]; cbn [if_string negb].
    + unfold truthy_string. destruct (String.eqb_spec m "") as [->|Hm];
        cbn [negb show_string].
      * cbn [status body]. split; [discriminate|].
        intros [e [[f [b [d [Hf _]]]] | [m [_ [Hm [Hne _]]]]]]; [discriminate|].
        congruence.
      * destruct (generateText m) as [text|e2] eqn:Hgen; cbn [bind status body].
        -- split; [discriminate|].
           intros [e [[f [b [d [Hf _]]]] | [m' [_ [Hm' [_ Hg]]]]]]; [discriminate|].
           congruence.
        -- split; [|reflexivity]. intros _. exists e2. right. exists m. auto.
    + cbn [status body]. split; [discriminate|].
      intros [e [[f [b [d [Hf _]]]] | [m [_ [Hm _]]]]]; discriminate.
Qed.

(** X12: the chat route answers with status 200, 400 or 500 only; the body
    is the model's reply exactly when the status is 200; the status is 500,
    then with [Failed to generate response], exactly when reading the form
    fails or the model call fails on the prompt the route sends (the
    analysis prompt of the parsed file, or the message when there is no
    file); without a message and without a file the answer is 400 with
    [Message or file is required]; and an upload whose extension is pdf is
    never answered 400. *)
Theorem chat_POST_statuses
        (E : Externals) (generateText : string -> Result string)
        (formData : Result ChatForm) :
  let response := chat_POST E generateText formData in
  (status response = 200 \/ status response = 400 \/ status response = 500) /\
  (status response = 200 <-> exists text, body response = ChatReply text) /\
  (status response = 500 <->
   (exists e, formData = Throw e) \/
   (exists form e,
       formData = Ok form /\
       ((exists file fileBuffer doc,
            form_file form = Some (file, fileBuffer) /\
            parseDocument E file fileBuffer = Ok doc /\
            generateText
              (generateAnalysisPrompt doc (or_undefined (form_message form))) =
              Throw e) \/
        (exists m,
            form_file form = None /\ form_message form = Some m /\ m <> "" /\
            generateText m = Throw e)))) /\
  (status response = 500 ->
   body response = ChatError "Failed to generate response") /\
  (forall form,
      formData = Ok form ->
      if_string (form_message form) = false -> form_file form = None ->
      response =
      {| status := 400; body := ChatError "Message or file is required" |}) /\
  (forall form file fileBuffer,
      formData = Ok form ->
      form_file form = Some (file, fileBuffer) ->
      extension_of (name file) = Some "pdf" ->
      status response <> 400).
Proof.
  cbv zeta.
  split; [|split; [|split; [|split; [|split]]]].
  - unfold chat_POST.
    destruct formData as [[message [[file fileBuffer]|]]|e0];
      cbn [bind form_message form_file]; [| |cbn; auto].
    + rewrite andb_false_r.
      destruct (parseDocument E file fileBuffer); [|cbn; auto].
      destruct (generateText _); cbn; auto.
    + rewrite andb_true_r. destruct (if_string message); cbn [negb]; [|cbn; auto].
      destruct (generateText _); cbn; auto.
  - unfold chat_POST.
    destruct formData as [[message [[file fileBuffer]|]]|e0];
      cbn [bind form_message form_file].
    + rewrite andb_false_r.
      destruct (parseDocument E file fileBuffer);
        [destruct (generateText _)|]; cbn [bind status body];
        split; intros; settle_cases.
    + rewrite andb_true_r. destruct (if_string message); cbn [negb];
        [destruct (generateText _)|]; cbn [bind status body];
        split; intros; settle_cases.
    + cbn [status body]. split; intros; settle_cases.
  - destruct formData as [form|e0].
    + rewrite chat_500_cases. split.
      * intros [e H]. right. exists form, e. auto.
      * intros [[e H] | [form' [e [Hf H]]]]; [discriminate|].
        injection Hf as <-. eauto.
    + split; [eauto | reflexivity].
  - unfold chat_POST.
    destruct formData as [[message [[file fileBuffer]|]]|e0];
      cbn [bind form_message form_file]; [| |reflexivity].
    + rewrite andb_false_r.
      destruct (parseDocument E file fileBuffer);
        [destruct (generateText _)|]; cbn [bind status body];
        try discriminate; reflexivity.
    + rewrite andb_true_r. destruct (if_string message); cbn [negb];
        [destruct (generateText _)|]; cbn [bind status body];
        try discriminate; reflexivity.
  - intros form -> Hmsg Hfile. destruct form as [message file].
    cbn in Hmsg, Hfile. subst file. unfold chat_POST.
    cbn [bind form_message form_file]. rewrite Hmsg. reflexivity.
  - intros form file fileBuffer -> Hfile Hext. destruct form as [message f].
    cbn in Hfile. subst f. unfold chat_POST.
    cbn [bind form_message form_file]. rewrite andb_false_r.
    rewrite (parseDocument_pdf E file fileBuffer Hext).
    destruct (parsePDF_total E fileBuffer (name file) (type file) (size file))
      as [doc ->].
    destruct (generateText _); cbn; discriminate.
Qed.

(** * Further properties of the extractors and of the composer *)

(** ** Fields a CSV document reads *)

Lemma numbered_lines_agree {A : Type} (render : A -> string) (l l' : list A) :
  Forall2 (fun a b => render a = render b) l l' ->
  forall n, numbered_lines render n l = numbered_lines render n l'.
Proof.
  induction 1 as [|a b l l' Hab _ IH]; intros n; [reflexivity|].
  cbn [numbered_lines]. now rewrite Hab, IH.
Qed.

Lemma Forall2_firstn {A : Type} (P : A -> A -> Prop) (k : nat) (l l' : list A) :
  Forall2 P l l' -> Forall2 P (firstn k l) (firstn k l').
Proof.
  intros H. revert k. induction H as [|a b l l' Hab _ IH]; intros [|k]; cbn;
    constructor; auto.
Qed.

(** X13: a CSV document depends on the records after the first only through
    their number and what [row[header] || ''] reads of them at the field
    names of the first record: fields that the first record does not have
    never reach the content.  At a field name that [Object.prototype] does
    not have, a record without the field and a record with an empty value
    read alike. *)
Theorem parseCSV_reads_header_fields
        (first : CsvRecord) (rest rest' : list CsvRecord)
        (fname ftype : string) (fsize : N) :
  (Forall2 (fun r r' =>
              forall header,
                In header (Object_keys first) ->
                or_string (row_get r header) "" =
                or_string (row_get r' header) "")
           rest rest' ->
   parseCSV_end (first :: rest) fname ftype fsize =
   parseCSV_end (first :: rest') fname ftype fsize) /\
  (forall header r r',
      Object_prototype_text header = None ->
      record_get r header = None -> record_get r' header = Some "" ->
      or_string (row_get r header) "" = or_string (row_get r' header) "").
Proof.
  split.
  - intros Hagree.
    assert (Hlen : len (first :: rest) = len (first :: rest')).
    { unfold len. cbn [List.length]. now rewrite (Forall2_length Hagree). }
    assert (Hlines :
              Forall2 (fun a b => record_values (Object_keys first) a =
                                  record_values (Object_keys first) b)
                      (first :: rest) (first :: rest')).
    { constructor; [reflexivity|].
      eapply Forall2_impl; [|exact Hagree].
      intros r r' Hr. rewrite <- !csv_values. f_equal.
      apply map_ext_in. exact Hr. }
    rewrite !parseCSV_end_spec. unfold csv_document, preview.
    rewrite Hlen.
    rewrite (numbered_lines_agree _ _ _ (Forall2_firstn _ 20 _ _ Hlines) 1).
    reflexivity.
  - intros header r r' Hproto Hr Hr'. unfold row_get.
    rewrite Hr, Hr', Hproto. reflexivity.
Qed.

Lemma parseCSV_reads_header_fields_witness :
  parseCSV_end [[("a", "1"); ("b", "2")]; [("a", "3"); ("b", ""); ("zz", "dropped")]]
               "t.csv" "text/csv" 20 =
  parseCSV_end [[("a", "1"); ("b", "2")]; [("a", "3")]] "t.csv" "text/csv" 20.
Proof.
  apply (proj1 (parseCSV_reads_header_fields [("a", "1"); ("b", "2")]
                  [[("a", "3"); ("b", ""); ("zz", "dropped")]] [[("a", "3")]]
                  "t.csv" "text/csv" 20)).
  constructor; [|constructor].
  intros header [<-|[<-|[]]]; reflexivity.
Defined.

(** ** What the prompt carries *)

Lemma includes_prefix_eq (hay needle rest : string) :
  hay = needle ++ rest -> includes hay needle = true.
Proof. intros ->. apply includes_app_head. Qed.

(** Finds the needle at the front of a right-nested concatenation. *)
Ltac front_piece :=
  eapply includes_prefix_eq; rewrite ?append_assoc; reflexivity.

(** X14: the prompt carries the file name, the whole content under its
    heading and, when the message is not empty, the message between double
    quotes, all three unchanged; an empty message gives the prompt of no
    message. *)
Theorem prompt_carries_document
        (doc : ParsedDocument) (userMessage : option string) :
  includes (generateAnalysisPrompt doc userMessage)
           ("- File: " ++ fileName (metadata doc) ++ nl) = true /\
  includes (generateAnalysisPrompt doc userMessage)
           ("Document Content:" ++ nl ++ content doc ++ nl ++ nl) = true /\
  (forall m,
      userMessage = Some m -> m <> "" ->
      includes (generateAnalysisPrompt doc userMessage)
               ("USER'S QUESTION: " ++ dq ++ m ++ dq ++ nl) = true) /\
  generateAnalysisPrompt doc (Some "") = generateAnalysisPrompt doc None.
Proof.
  rewrite prompt_decomposition. unfold prompt_tail, prompt_head.
  rewrite !append_assoc.
  split; [|split; [|split]].
  - do 5 apply includes_app_r. front_piece.
  - do 17 apply includes_app_r. front_piece.
  - intros m -> Hm. destruct m as [|c r]; [contradiction|].
    do 22 apply includes_app_r. unfold question_part. front_piece.
  - reflexivity.
Qed.

Lemma prompt_carries_document_witness :
  includes (generateAnalysisPrompt degenerate_document (Some "Why?"))
           ("USER'S QUESTION: " ++ dq ++ "Why?" ++ dq ++ nl) = true.
Proof.
  apply (proj1 (proj2 (proj2 (prompt_carries_document degenerate_document
                                (Some "Why?")))) "Why?" eq_refl).
  discriminate.
Defined.

(** ** The composer's PDF test and the dispatcher's extension *)

Lemma substring_all (b : string) : substring 0 (String.length b) b = b.
Proof. induction b as [|c b IH]; [reflexivity | cbn; now rewrite IH]. Qed.

Lemma substring_skip (a b : string) (m : nat) :
  substring (String.length a) m (a ++ b) = substring 0 m b.
Proof. induction a as [|c a IH]; [reflexivity | exact IH]. Qed.

Lemma endsWith_app (a b : string) : endsWith (a ++ b) b = true.
Proof.
  unfold endsWith. rewrite length_append.
  replace (String.length a + String.length b - String.length b)%nat
    with (String.length a) by lia.
  rewrite substring_skip, substring_all, String.eqb_refl.
  rewrite andb_true_r. apply Nat.leb_le. lia.
Qed.

Lemma substring_suffix (s x : string) :
  forall k m,
    substring k m s = x -> (k + m)%nat = String.length s ->
    exists a, s = a ++ x.
Proof.
  induction s as [|c s IH]; intros k m Hsub Hlen.
  - cbn in Hlen. assert (k = 0%nat) by lia. assert (m = 0%nat) by lia.
    subst k m. cbn in Hsub. subst x. now exists "".
  - destruct k as [|k].
    + rewrite Nat.add_0_l in Hlen. subst m. rewrite substring_all in Hsub.
      subst x. now exists "".
    + cbn [substring] in Hsub. cbn in Hlen.
      destruct (IH k m Hsub ltac:(lia)) as [a ->]. now exists (String c a).
Qed.

Lemma endsWith_inv (s suf : string) :
  endsWith s suf = true -> exists a, s = a ++ suf.
Proof.
  unfold endsWith. intros H. apply andb_true_iff in H as [Hle Heq].
  apply Nat.leb_le in Hle. apply String.eqb_eq in Heq.
  apply (substring_suffix s suf _ _ Heq). lia.
Qed.

Lemma toLowerCase_app (a b : string) :
  toLowerCase (a ++ b) = toLowerCase a ++ toLowerCase b.
Proof. induction a as [|c a IH]; [reflexivity | cbn; now rewrite IH]. Qed.

Lemma toLowerCase_app_inv (s a b : string) :
  toLowerCase s = a ++ b ->
  exists a' b', s = a' ++ b' /\ toLowerCase a' = a /\ toLowerCase b' = b.
Proof.
  revert s. induction a as [|x a IH]; intros s H.
  - exists "", s. auto.
  - destruct s as [|c s]; [discriminate|].
    cbn in H. injection H as Hc Hs.
    destruct (IH s Hs) as [a' [b' [-> [Ha Hb]]]].
    exists (String c a'), b'. cbn. now rewrite Hc, Ha.
Qed.

(** A text with a dot splits at its last dot. *)
Lemma last_dot_split (s : string) :
  includes s "." = true ->
  exists pre suf, s = pre ++ "." ++ suf /\ includes suf "." = false.
Proof.
  induction s as [|c r IH]; [discriminate|].
  cbn [includes]. rewrite startsWith_char.
  destruct (includes r ".") eqn:Hr.
  - intros _. destruct (IH eq_refl) as [pre [suf [-> Hsuf]]].
    now exists (String c pre), suf.
  - rewrite orb_false_r. intros Hc. apply Ascii.eqb_eq in Hc. subst c.
    now exists "", r.
Qed.

(** X15: the composer's test on the file name, [toLowerCase] ending with
    [.pdf], holds exactly for the names that contain a dot and that
    [parseDocument] sends to the PDF extractor; so with a declared type
    other than [application/pdf], the document of a file named without a
    dot is not taken for a PDF, while every other PDF document is. *)
Theorem pdf_name_test_is_pdf_dispatch (fname : string) :
  endsWith (toLowerCase fname) ".pdf" = true <->
  extension_of fname = Some "pdf" /\ includes fname "." = true.
Proof.
  split.
  - intros H. apply endsWith_inv in H as [a Ha].
    apply toLowerCase_app_inv in Ha as [a' [b' [-> [_ Hb]]]].
    destruct b' as [|c suf]; [discriminate|].
    cbn in Hb. injection Hb as Hc Hsuf.
    assert (c = "."%char) as ->.
    { apply Ascii.eqb_eq. rewrite Ascii.eqb_sym, <- toLowerCase_char_dot, Hc.
      reflexivity. }
    assert (Hdot : includes suf "." = false)
      by (now rewrite <- toLowerCase_dots, Hsuf).
    split.
    + change (String "." suf) with ("." ++ suf).
      rewrite (extension_after_last_dot a' suf Hdot). now rewrite Hsuf.
    + apply includes_app_r. reflexivity.
  - intros [Hext Hdot].
    destruct (last_dot_split fname Hdot) as [pre [suf [-> Hsuf]]].
    rewrite (extension_after_last_dot pre suf Hsuf) in Hext.
    injection Hext as Hlow.
    rewrite !toLowerCase_app, Hlow.
    change (toLowerCase "." ++ "pdf") with ".pdf". apply endsWith_app.
Qed.

Lemma pdf_name_test_is_pdf_dispatch_witness :
  extension_of "Annual.Report.PDF" = Some "pdf" /\
  includes "Annual.Report.PDF" "." = true.
Proof.
  exact (proj1 (pdf_name_test_is_pdf_dispatch "Annual.Report.PDF") eq_refl).
Defined.

(** ** Bounds on the counts of a spreadsheet document *)

Lemma max_N_upper (x : N) (l : list N) : In x l -> x <= max_N l.
Proof.
  induction l as [|y l IH]; [contradiction|].
  cbn [max_N fold_right]. fold (max_N l). intros [->|Hin].
  - apply N.le_max_l.
  - etransitivity; [exact (IH Hin) | apply N.le_max_r].
Qed.

Lemma filter_shorter {A : Type} (f : A -> bool) (l : list A) :
  len (filter f l) <= len l.
Proof.
  unfold len. induction l as [|a l IH]; cbn [filter List.length]; [lia|].
  destruct (f a); cbn [List.length]; lia.
Qed.

Lemma sum_N_le {A : Type} (f g : A -> N) (l : list A) :
  (forall a, f a <= g a) -> sum_N (map f l) <= sum_N (map g l).
Proof.
  intros Hfg. induction l as [|a l IH]; cbn [map sum_N fold_right]; [lia|].
  fold (sum_N (map f l)). fold (sum_N (map g l)). specialize (Hfg a). lia.
Qed.


